(** * Kraken2MPA: the report parser and the lineage path tracker

    A shallow embedding of [Kraken2MPAPlugin.py]: the function
    [process_kraken_report] and the method [Kraken2MPAPlugin.output].

    Conventions of the embedding.
    - The program is read as Python 3: [/] is the true division.
    - A Python [str] is a [string]; a character is a code point below 256.
    - A Python exception is a value [Raise e] of the type [result]; the two
      exceptions the program can meet are [ValueError] and [IndexError].
    - [level_num = spaces/2] is kept as the exact rational [spaces # 2]
      (true division of a small integer by two is exact in binary floating
      point), and compared with [Qeq_bool].
    - [float] and [str] of a float belong to the interpreter: they are the
      variables [float_of_string] and [str_of_float] of the section.
    - The output file is the text written to it so far. *)

From Stdlib Require Import String Ascii List ZArith QArith Lia Lqa Bool.
From Stdlib Require Import DecimalString.
Import ListNotations.

Open Scope string_scope.
Open Scope Z_scope.

(** ** Exceptions *)

Inductive exn : Type := ValueError | IndexError.

Inductive result (A : Type) : Type :=
| Ok (a : A)
| Raise (e : exn).

Arguments Ok {A} a.
Arguments Raise {A} e.

Definition rbind {A B : Type} (r : result A) (k : A -> result B) : result B :=
  match r with
  | Ok a => k a
  | Raise e => Raise e
  end.

Declare Scope result_scope.
Delimit Scope result_scope with result.
Notation "x <- r ;; k" := (rbind r (fun x => k))
  (at level 61, r at next level, right associativity) : result_scope.
Notation "' pat <- r ;; k" := (rbind r (fun x => match x with pat => k end))
  (at level 61, pat pattern, r at next level, right associativity) : result_scope.

(** [try: body except ValueError: handler] *)
Definition try_except_ValueError {A : Type} (body handler : result A) : result A :=
  match body with
  | Raise ValueError => handler
  | r => r
  end.

(** ** The string operations of the interpreter that the program uses *)

Module Py.

Definition tab : ascii := "009"%char.
Definition newline : ascii := "010"%char.

(** [str.isspace] on one code point below 256. *)
Definition isspace (c : ascii) : bool :=
  let n := N_of_ascii c in
  (((9 <=? n) && (n <=? 13)) || ((28 <=? n) && (n <=? 32))
   || (n =? 133) || (n =? 160))%N.

Fixpoint lstrip (s : string) : string :=
  match s with
  | EmptyString => EmptyString
  | String c r => if isspace c then lstrip r else s
  end.

Fixpoint rstrip (s : string) : string :=
  match s with
  | EmptyString => EmptyString
  | String c r =>
      match rstrip r with
      | EmptyString => if isspace c then EmptyString else String c EmptyString
      | r' => String c r'
      end
  end.

(** [s.strip()] *)
Definition strip (s : string) : string := rstrip (lstrip s).

(** [s.split(sep)] for a one-character separator: never an empty list. *)
Fixpoint split (sep : ascii) (s : string) : list string :=
  match s with
  | EmptyString => [EmptyString]
  | String c r =>
      if (c =? sep)%char then EmptyString :: split sep r
      else match split sep r with
           | f :: fs => String c f :: fs
           | [] => [String c EmptyString]
           end
  end.

(** [l[i]], with the negative indices of Python. *)
Definition getitem {A : Type} (l : list A) (i : Z) : result A :=
  let n := Z.of_nat (length l) in
  let j := if i <? 0 then n + i else i in
  if (j <? 0) || (n <=? j) then Raise IndexError
  else match nth_error l (Z.to_nat j) with
       | Some a => Ok a
       | None => Raise IndexError
       end.

(** [s[0]] *)
Definition first_char (s : string) : result ascii :=
  match s with
  | EmptyString => Raise IndexError
  | String c _ => Ok c
  end.

(** [s[1:]] *)
Definition tail (s : string) : string :=
  match s with
  | EmptyString => EmptyString
  | String _ r => r
  end.

(** [s.replace(a, b)] for one-character [a] and [b]. *)
Fixpoint replace (a b : ascii) (s : string) : string :=
  match s with
  | EmptyString => EmptyString
  | String c r => String (if (c =? a)%char then b else c) (replace a b r)
  end.

Definition lower_char (c : ascii) : ascii :=
  let n := N_of_ascii c in
  if (((65 <=? n) && (n <=? 90))
      || ((192 <=? n) && (n <=? 222) && negb (n =? 215)))%N
  then ascii_of_N (n + 32) else c.

(** [s.lower()] *)
Fixpoint lower (s : string) : string :=
  match s with
  | EmptyString => EmptyString
  | String c r => String (lower_char c) (lower r)
  end.

Definition is_digit (c : ascii) : bool :=
  let n := N_of_ascii c in ((48 <=? n) && (n <=? 57))%N.

Definition digit_value (c : ascii) : Z := Z.of_N (N_of_ascii c) - 48.

(** The digits of a decimal literal: one underscore is allowed between two
    digits. [after_digit] tells whether the previous character was a digit. *)
Fixpoint digits (s : string) (acc : Z) (after_digit : bool) : option Z :=
  match s with
  | EmptyString => if after_digit then Some acc else None
  | String c r =>
      if is_digit c then digits r (10 * acc + digit_value c) true
      else if (c =? "_")%char && after_digit then
        match r with
        | EmptyString => None
        | String d _ => if is_digit d then digits r acc false else None
        end
      else None
  end.

(** The white space that [int] skips around a number. It is not that of
    [str.strip]: below 127 only the six characters of C's [isspace] count,
    so the separators 28 to 31 are not skipped; 133 and 160 are. *)
Definition int_isspace (c : ascii) : bool :=
  let n := N_of_ascii c in
  (((9 <=? n) && (n <=? 13)) || (n =? 32) || (n =? 133) || (n =? 160))%N.

Fixpoint int_lstrip (s : string) : string :=
  match s with
  | EmptyString => EmptyString
  | String c r => if int_isspace c then int_lstrip r else s
  end.

Fixpoint int_rstrip (s : string) : string :=
  match s with
  | EmptyString => EmptyString
  | String c r =>
      match int_rstrip r with
      | EmptyString => if int_isspace c then EmptyString else String c EmptyString
      | r' => String c r'
      end
  end.

(** [int(s)] in base 10: surrounding white space, an optional sign, digits.
    (The interpreter's limit on the number of digits is not modelled.) *)
Definition int (s : string) : result Z :=
  let t := int_rstrip (int_lstrip s) in
  let v := match t with
           | String "+" r => digits r 0 false
           | String "-" r => option_map Z.opp (digits r 0 false)
           | _ => digits t 0 false
           end in
  match v with
  | Some z => Ok z
  | None => Raise ValueError
  end.

(** [str(n)] for an integer [n]. *)
Definition str_of_int (n : Z) : string := NilZero.string_of_int (Z.to_int n).

(** [os.path.basename(p)]: what follows the last slash. *)
Definition basename (p : string) : string := last (split "/" p) EmptyString.

End Py.

(** ** A stand-in for the interpreter's floats

    The statements below hold for every [float] and [str]; the closed
    instances at the end of the file are evaluated with this one, which
    accepts the plain decimal literals ([50.00], [7], [.5]) and prints a
    number as it was read. *)

Module DecimalText.

Fixpoint plain_decimal (s : string) (seen_dot seen_digit : bool) : bool :=
  match s with
  | EmptyString => seen_digit
  | String c r =>
      if Py.is_digit c then plain_decimal r seen_dot true
      else if (c =? ".")%char && negb seen_dot then plain_decimal r true seen_digit
      else false
  end.

Definition float_of_string (s : string) : option string :=
  let t := Py.strip s in
  if plain_decimal t false false then Some t else None.

Definition str_of_float (x : string) : string := x.

End DecimalText.

(** ** [process_kraken_report] *)

Section Kraken2MPA.

(** The floating-point numbers of the interpreter: [float(s)], which is
    [None] where Python raises [ValueError], and [str(x)]. *)
Variable pyfloat : Type.
Variable float_of_string : string -> option pyfloat.
Variable str_of_float : pyfloat -> string.

Definition float (s : string) : result pyfloat :=
  match float_of_string s with
  | Some x => Ok x
  | None => Raise ValueError
  end.

(** The list [[name, level_num, level_type, all_reads, percents]]. *)
Record report_vals : Type := mk_report_vals {
  name : string;
  level_num : Q;
  level_type : string;
  all_reads : Z;
  percents : pyfloat
}.

Definition map_kuniq : list (string * string) :=
  [("species", "S"); ("genus", "G"); ("family", "F"); ("order", "O");
   ("class", "C"); ("phylum", "P"); ("superkingdom", "D"); ("kingdom", "K")].

Fixpoint lookup (k : string) (m : list (string * string)) : option string :=
  match m with
  | [] => None
  | (k', v) :: m' => if (k =? k')%string then Some v else lookup k m'
  end.

(** Lines 87-90. *)
Definition normalize_rank (level_type : string) : string :=
  match lookup level_type map_kuniq with
  | None => "-"
  | Some v => v
  end.

(** Lines 81-93: the taxonomy ID and the level type. *)
Definition taxid_level (split_str : list string) : result (Z * string) :=
  try_except_ValueError
    (f <- Py.getitem split_str (-3) ;;
     taxid <- Py.int f ;;
     level_type <- Py.getitem split_str (-2) ;;
     Ok (taxid, normalize_rank level_type))%result
    (f <- Py.getitem split_str (-2) ;;
     taxid <- Py.int f ;;
     level_type <- Py.getitem split_str (-3) ;;
     Ok (taxid, level_type))%result.

(** Lines 97-102: [for char in name] runs over the characters of the field
    while [name] and [spaces] are updated. *)
Fixpoint leading_spaces_loop (chars name : string) (spaces : Z) : string * Z :=
  match chars with
  | EmptyString => (name, spaces)
  | String char rest =>
      if (char =? " ")%char
      then leading_spaces_loop rest (Py.tail name) (spaces + 1)
      else (name, spaces)
  end.

(** Line 71: [curr_str.strip().split('\t')]. *)
Definition fields (curr_str : string) : list string :=
  Py.split Py.tab (Py.strip curr_str).

(** [Ok None] is the empty list [[]] that the function returns for a line
    that is not a data line. *)
Definition process_kraken_report (curr_str : string) : result (option report_vals) :=
  let split_str := fields curr_str in
  if (Z.of_nat (length split_str) <? 4) then Ok None
  else
    match (f <- Py.getitem split_str 1 ;; Py.int f)%result with
    | Raise ValueError => Ok None
    | Raise e => Raise e
    | Ok _ =>
        (f0 <- Py.getitem split_str 0 ;;
         percents <- float f0 ;;
         f1 <- Py.getitem split_str 1 ;;
         all_reads <- Py.int f1 ;;
         '(taxid, level_type) <- taxid_level split_str ;;
         name <- Py.getitem split_str (-1) ;;
         let '(name, spaces) := leading_spaces_loop name name 0 in
         let name := Py.replace " " "_" name in
         let level_num := spaces # 2 in
         Ok (Some (mk_report_vals name level_num level_type all_reads percents)))%result
    end.

(** ** [Kraken2MPAPlugin.output] *)

(** The attributes that [input] sets. *)
Record plugin : Type := mk_plugin {
  r_file : string;
  add_header : string;
  use_reads : string;
  x_include : string
}.

(** What a piece of code wrote to [o_file], and how it ended. *)
Definition io (A : Type) : Type := (string * result A)%type.

Definition ret {A : Type} (a : A) : io A := (EmptyString, Ok a).

Definition bind {A B : Type} (m : io A) (k : A -> io B) : io B :=
  match m with
  | (w, Ok a) => let (w', r) := k a in (w ++ w', r)
  | (w, Raise e) => (w, Raise e)
  end.

Definition write (s : string) : io unit := (s, Ok tt).

Definition lift {A : Type} (r : result A) : io A := (EmptyString, r).

Declare Scope io_scope.
Delimit Scope io_scope with io.
Notation "x <- m ;; k" := (bind m (fun x => k))
  (at level 61, m at next level, right associativity) : io_scope.
Notation "' pat <- m ;; k" := (bind m (fun x => match x with pat => k end))
  (at level 61, pat pattern, m at next level, right associativity) : io_scope.
Notation "m ;;; k" := (bind m (fun _ => k))
  (at level 61, right associativity) : io_scope.

(** [curr_path] and [prev_lvl_num]. *)
Record tracker : Type := mk_tracker {
  curr_path : list string;
  prev_lvl_num : Q
}.

Definition initial : tracker := mk_tracker [] (-1 # 1).

Definition main_lvls : list string :=
  ["R"; "K"; "D"; "P"; "C"; "O"; "F"; "G"; "S"].

Definition mem (s : string) (l : list string) : bool := existsb (String.eqb s) l.

(** Lines 153-158. *)
Definition display_level (level_type : string) : string :=
  if negb (mem level_type main_lvls) then "x"
  else if (level_type =? "K")%string then "k"
  else if (level_type =? "D")%string then "k"
  else level_type.

(** Line 159. *)
Definition make_level_str (level_type name : string) : string :=
  Py.lower level_type ++ "__" ++ name.

(** [curr_path.pop()], the popped entry dropped. *)
Definition pop (path : list string) : result (list string) :=
  match path with
  | [] => Raise IndexError
  | _ => Ok (removelast path)
  end.

(** Lines 167-169. Every turn of the loop pops one entry, so the loop makes
    at most [length path] turns before [pop] raises; [n] counts the entries
    left, and the branch for [O] after a pop that succeeded is not reached
    from [move_back]. *)
Fixpoint move_back_loop (n : nat) (level_num prev_lvl_num : Q) (path : list string)
  : result (Q * list string) :=
  if negb (Qeq_bool level_num (prev_lvl_num + 1)) then
    let prev_lvl_num := (prev_lvl_num - 1)%Q in
    match pop path with
    | Raise e => Raise e
    | Ok path =>
        match n with
        | O => Raise IndexError
        | S n' => move_back_loop n' level_num prev_lvl_num path
        end
    end
  else Ok (prev_lvl_num, path).

Definition move_back (level_num prev_lvl_num : Q) (path : list string)
  : result (Q * list string) :=
  move_back_loop (length path) level_num prev_lvl_num path.

(** Lines 173-176. *)
Fixpoint write_ancestors (self : plugin) (path : list string) : io unit :=
  match path with
  | [] => ret tt
  | string :: rest =>
      (c <- lift (Py.first_char string) ;;
       (if ((c =? "x")%char && (x_include self =? "True")%string) || negb (c =? "x")%char
        then if negb (c =? "r")%char then write (string ++ "|") else ret tt
        else ret tt) ;;;
       write_ancestors self rest)%io
  end.

(** Lines 171-181. *)
Definition write_level (self : plugin) (path : list string)
    (level_type level_str : string) (vals : report_vals) : io unit :=
  if ((level_type =? "x")%string && (x_include self =? "True")%string) || negb (level_type =? "x")%string
  then
    (write_ancestors self path ;;;
     if (use_reads self =? "True")%string
     then write (level_str ++ String Py.tab (Py.str_of_int (all_reads vals))
                   ++ String Py.newline EmptyString)
     else write (level_str ++ String Py.tab (str_of_float (percents vals))
                   ++ String Py.newline EmptyString))%io
  else ret tt.

(** Lines 144-184: the body of [for line in r_file]. *)
Definition loop_body (self : plugin) (st : tracker) (line : string) : io tracker :=
  (vals <- lift (process_kraken_report line) ;;
   match vals with
   | None => ret st
   | Some vals =>
       if (level_type vals =? "U")%string then ret st
       else
         let level_type := display_level (level_type vals) in
         let level_str := make_level_str level_type (name vals) in
         if Qeq_bool (prev_lvl_num st) (-1 # 1) then
           ret (mk_tracker (curr_path st ++ [level_str]) (level_num vals))
         else
           ('(prev, path) <- lift (move_back (level_num vals) (prev_lvl_num st) (curr_path st)) ;;
            write_level self path level_type level_str vals ;;;
            ret (mk_tracker (path ++ [level_str]) (level_num vals)))
   end)%io.

(** [for line in r_file], from the tracker [st]. *)
Fixpoint for_lines (self : plugin) (lines : list string) (st : tracker) : io tracker :=
  match lines with
  | [] => ret st
  | line :: rest => (st' <- loop_body self st line ;; for_lines self rest st')%io
  end.

(** [output]: the text written to the file, and how the pass ended. *)
Definition output (self : plugin) (lines : list string) : io unit :=
  ((if (add_header self =? "True")%string
    then write ("#Classification" ++ String Py.tab (Py.basename (r_file self))
                  ++ String Py.newline EmptyString)
    else ret tt) ;;;
   for_lines self lines initial ;;;
   ret tt)%io.

(** The output file after [output]: [open(outfile, 'w')] discards what the
    file held. *)
Definition output_file (self : plugin) (lines : list string) (old : string) : string :=
  let truncated := EmptyString in
  truncated ++ fst (output self lines).


(** ** The specification's wording, to be compared with the code *)

(** The number of leading space characters of a field. *)
Fixpoint count_leading_spaces (s : string) : Z :=
  match s with
  | String " " r => 1 + count_leading_spaces r
  | _ => 0
  end.

(** The field without its leading space characters. *)
Fixpoint drop_leading_spaces (s : string) : string :=
  match s with
  | String " " r => drop_leading_spaces r
  | _ => s
  end.

(** The fixed rank table of the specification. *)
Definition rank_table (word : string) : string :=
  if (word =? "species")%string then "S"
  else if (word =? "genus")%string then "G"
  else if (word =? "family")%string then "F"
  else if (word =? "order")%string then "O"
  else if (word =? "class")%string then "C"
  else if (word =? "phylum")%string then "P"
  else if (word =? "superkingdom")%string then "D"
  else if (word =? "kingdom")%string then "K"
  else "-".

(** A record's line is emitted when its display rank is not [x] or the
    intermediate ranks are included. *)
Definition emitted (self : plugin) (display_rank : string) : bool :=
  negb (display_rank =? "x")%string || (x_include self =? "True")%string.

(** A stack entry is written as a segment of the lineage unless it is an
    [x] entry while the intermediate ranks are excluded, or an [r] entry. *)
Definition is_segment (self : plugin) (entry : string) : bool :=
  match entry with
  | EmptyString => false
  | String c _ =>
      negb (c =? "r")%char
      && (negb (c =? "x")%char || (x_include self =? "True")%string)
  end.

(** The segments of a stack, root first, each followed by a bar. *)
Fixpoint join_segments (entries : list string) : string :=
  match entries with
  | [] => EmptyString
  | entry :: rest => (entry ++ "|") ++ join_segments rest
  end.

Definition lineage (self : plugin) (path : list string) : string :=
  join_segments (filter (is_segment self) path).

(** The header line, when the header option is set. *)
Definition header_text (self : plugin) : string :=
  if (add_header self =? "True")%string
  then "#Classification" ++ String Py.tab (Py.basename (r_file self))
         ++ String Py.newline EmptyString
  else EmptyString.

(** The tracker has taken a first record: [prev_lvl_num] is not [-1]. *)
Definition active (st : tracker) : Prop :=
  Qeq_bool (prev_lvl_num st) (-1 # 1) = false.

(** The height of the stack against the depth of the last record, for a
    report whose first record is at depth [d0]. *)
Definition height_inv (d0 : Q) (st : tracker) : Prop :=
  (inject_Z (Z.of_nat (length (curr_path st))) == prev_lvl_num st - d0 + 1)%Q.

(** The read count or the percent, as the metric option selects. *)
Definition metric (self : plugin) (vals : report_vals) : string :=
  if (use_reads self =? "True")%string then Py.str_of_int (all_reads vals)
  else str_of_float (percents vals).

(** The emitted line of a record below the stack [path]. *)
Definition mpa_line (self : plugin) (path : list string) (level_str : string)
    (vals : report_vals) : string :=
  lineage self path ++ level_str ++ String Py.tab (metric self vals)
    ++ String Py.newline EmptyString.

(** The level string that the tracker pushes for a record. *)
Definition level_str_of (vals : report_vals) : string :=
  make_level_str (display_level (level_type vals)) (name vals).

(** The depth of the first record of a report that is not unclassified. *)
Fixpoint first_depth (lines : list string) : option Q :=
  match lines with
  | [] => None
  | line :: rest =>
      match process_kraken_report line with
      | Ok (Some vals) =>
          if (level_type vals =? "U")%string then first_depth rest
          else Some (level_num vals)
      | _ => first_depth rest
      end
  end.

(** A count as a rational. *)
Definition Qnat (k : nat) : Q := inject_Z (Z.of_nat k).

(** A rank [rank] is taken from the field [word]: as it stands, or through
    the table. *)
Definition rank_from (word rank : string) : Prop :=
  rank = word \/ rank = normalize_rank word.

(** The order of the two attempts as the specification words it, for a
    function [determine] that yields the taxonomy ID and the rank of a split
    line: the second-from-last field is the taxonomy ID and the field before
    it the rank word; only when the second-from-last field is not an integer
    is the rank taken from a field further to the left. *)
Definition order_as_worded (determine : list string -> result (Z * string))
    (split_str : list string) : Prop :=
  forall taxid rank, determine split_str = Ok (taxid, rank) ->
    ((f <- Py.getitem split_str (-2) ;; Py.int f)%result = Ok taxid
     /\ exists word, Py.getitem split_str (-3) = Ok word /\ rank_from word rank)
    \/ ((f <- Py.getitem split_str (-2) ;; Py.int f)%result = Raise ValueError
        /\ exists (i : nat) (word : string),
             (i + 3 <= length split_str)%nat
             /\ nth_error split_str i = Some word /\ rank_from word rank).

(** ** [Kraken2MPAPlugin.input] *)

(** The attributes after [input]. [r_file] is set only when the parameters
    have the key [report]; the other three always are. *)
Record attributes : Type := mk_attributes {
  attr_r_file : option string;
  attr_add_header : string;
  attr_use_reads : string;
  attr_x_include : string
}.

(** Lines 109-124. [parameters] is the dictionary that
    [PyIO.readParameters(infile)] returns, read with [lookup], and [prefix]
    the string that [PyPluMA.prefix()] returns. *)
Definition input (prefix : string) (parameters : list (string * string)) : attributes :=
  mk_attributes
    (match lookup "report" parameters with
     | Some report => Some (prefix ++ "/" ++ report)
     | None => None
     end)
    (match lookup "display_header" parameters with
     | Some v => v
     | None => "False"
     end)
    (match lookup "read_count" parameters with
     | Some v => v
     | None => "True"
     end)
    (match lookup "intermediate_ranks" parameters with
     | Some v => v
     | None => "False"
     end).

(** [output] after [input]. When [self.r_file] was not set, line 135 raises
    [AttributeError] before either file is opened: [None] stands for that
    exception, after which the output file is as it was. *)
Definition output_after_input (self : attributes) (lines : list string)
  : option (io unit) :=
  match attr_r_file self with
  | None => None
  | Some f =>
      Some (output (mk_plugin f (attr_add_header self) (attr_use_reads self)
                      (attr_x_include self)) lines)
  end.

(** ** Predicates on lines and reports *)

(** Every character of the string is white space. *)
Fixpoint blank (s : string) : bool :=
  match s with
  | EmptyString => true
  | String c r => Py.isspace c && blank r
  end.

(** The character occurs in the string. *)
Fixpoint has_char (c : ascii) (s : string) : bool :=
  match s with
  | EmptyString => false
  | String c' r => (c' =? c)%char || has_char c r
  end.

(** The number of occurrences of the character in the string. *)
Fixpoint count_char (c : ascii) (s : string) : nat :=
  match s with
  | EmptyString => O
  | String c' r => ((if (c' =? c)%char then 1 else 0) + count_char c r)%nat
  end.

(** A line that the loop passes over: not a data line, or unclassified. *)
Definition skipped (line : string) : Prop :=
  process_kraken_report line = Ok None
  \/ exists vals, process_kraken_report line = Ok (Some vals)
                  /\ level_type vals = "U".

(** The rational is an integer. *)
Definition whole (q : Q) : bool := (Qnum q mod QDen q =? 0)%Z.

(** A record at depth [level] fits below a record at depth [prev] in a
    report whose first record is at depth [d0]: it is not above the first
    record, at most one level below the previous record, and a whole number
    of levels away from it. *)
Definition fits (d0 prev level : Q) : bool :=
  Qle_bool d0 level && Qle_bool level (prev + 1) && whole (prev + 1 - level).

(** The lines after a record at depth [prev]: every line parses, and every
    record that is not unclassified fits below the one before it. *)
Fixpoint nested (d0 prev : Q) (lines : list string) : bool :=
  match lines with
  | [] => true
  | line :: rest =>
      match process_kraken_report line with
      | Ok None => nested d0 prev rest
      | Ok (Some vals) =>
          if (level_type vals =? "U")%string then nested d0 prev rest
          else fits d0 prev (level_num vals) && nested d0 (level_num vals) rest
      | Raise _ => false
      end
  end.

(** A report: every line parses, and the records after the first one that is
    not unclassified are nested below it. *)
Fixpoint well_nested (lines : list string) : bool :=
  match lines with
  | [] => true
  | line :: rest =>
      match process_kraken_report line with
      | Ok None => well_nested rest
      | Ok (Some vals) =>
          if (level_type vals =? "U")%string then well_nested rest
          else nested (level_num vals) (level_num vals) rest
      | Raise _ => false
      end
  end.

(** The entry at index [j] of the stack comes from a record of the lines
    [seen] that is [j] levels below the first record, at depth [d0]. *)
Definition entry_at (d0 : Q) (seen : list string) (j : nat) (entry : string) : Prop :=
  exists (line : string) (vals : report_vals),
    In line seen
    /\ process_kraken_report line = Ok (Some vals)
    /\ level_type vals <> "U"
    /\ entry = level_str_of vals
    /\ (level_num vals == d0 + inject_Z (Z.of_nat j))%Q.

Definition path_inv (d0 : Q) (seen : list string) (st : tracker) : Prop :=
  forall (j : nat) (entry : string),
    nth_error (curr_path st) j = Some entry -> entry_at d0 seen j entry.

(** ** Where the exceptions come from *)

(** What raises an exception of the program. The source has no [raise]
    statement: [ValueError] comes from the built-ins [int] and [float],
    [IndexError] from [list.pop] on the empty list and from indexing. *)
Inductive raiser : Type := BuiltIn | RaiseStatement.

Definition raised_by (e : exn) : raiser :=
  match e with
  | ValueError => BuiltIn
  | IndexError => BuiltIn
  end.

(** The end of the pass as the specification words it for a backtrack past
    the empty stack: an error that the program raises itself. *)
Definition explicit_consistency_error {A : Type} (r : io A) : Prop :=
  exists e : exn, snd r = Raise e /\ raised_by e = RaiseStatement.

(** The rank of a record is normalized: its level type is not a rank word
    of the table left as it was read. *)
Definition rank_normalized (vals : report_vals) : Prop :=
  lookup (level_type vals) map_kuniq = None.

(** ** Sample report lines and tracker states *)

(** The fields of a line, joined with tabs. *)
Definition tsv (fs : list string) : string :=
  String.concat (String Py.tab EmptyString) fs.

Definition ecoli_line : string :=
  tsv ["50.00"; "100"; "50"; "S"; "1234"; "    Escherichia_coli"].

Definition homo_kuniq_line : string :=
  tsv ["0.05"; "12"; "3"; "9606"; "species"; "      Homo sapiens"].

Definition odd_indent_line : string :=
  tsv ["1.0"; "5"; "5"; "S"; "1"; "   Homo sapiens"].

Definition root_line : string :=
  tsv ["100.00"; "95"; "0"; "R"; "1"; "root"].

Definition indented_root_line : string :=
  tsv ["100.00"; "5"; "5"; "R"; "1"; "  root"].

Definition bacteria_line : string :=
  tsv ["90.00"; "90"; "10"; "D"; "2"; "  Bacteria"].

Definition archaea_line : string :=
  tsv ["5.00"; "5"; "5"; "D"; "2157"; "Archaea"].

Definition deep_line : string :=
  tsv ["5.00"; "5"; "5"; "S"; "6"; "        Deep"].

Definition bad_percent_line : string :=
  tsv ["n/a"; "5"; "5"; "S"; "1"; "Homo"].

Definition title_line : string := "% of reads and taxa".

(** A rank word in the column of the rank codes. *)
Definition species_code_line : string :=
  tsv ["1.0"; "5"; "5"; "species"; "9606"; "Homo sapiens"].

Definition default_plugin : plugin :=
  mk_plugin "/data/sample.kreport" "False" "True" "False".

Definition bacteria_path : tracker :=
  mk_tracker ["d__Bacteria"; "p__Proteobacteria"] (1 # 1).

Definition root_bacteria : tracker :=
  mk_tracker ["r__root"; "k__Bacteria"] (1 # 1).

(** ** Lists indexed as in Python *)

Lemma getitem_nonneg {A : Type} (l : list A) (i : nat) (a : A) :
  nth_error l i = Some a -> Py.getitem l (Z.of_nat i) = Ok a.
Proof.
  intros H. unfold Py.getitem. cbv zeta.
  assert (Hlt : (i < length l)%nat) by (apply nth_error_Some; congruence).
  assert (E1 : (Z.of_nat i <? 0) = false) by (apply Z.ltb_ge; lia).
  assert (E2 : (Z.of_nat (length l) <=? Z.of_nat i) = false) by (apply Z.leb_gt; lia).
  rewrite E1, E1, E2. simpl. now rewrite Nat2Z.id, H.
Qed.

Lemma getitem_neg {A : Type} (l : list A) (k : nat) :
  (1 <= k <= length l)%nat ->
  Py.getitem l (- Z.of_nat k) =
  match nth_error l (length l - k) with
  | Some a => Ok a
  | None => Raise IndexError
  end.
Proof.
  intros H. unfold Py.getitem. cbv zeta.
  assert (E0 : (- Z.of_nat k <? 0) = true) by (apply Z.ltb_lt; lia).
  rewrite E0.
  replace (Z.of_nat (length l) + - Z.of_nat k) with (Z.of_nat (length l - k)) by lia.
  assert (E1 : (Z.of_nat (length l - k) <? 0) = false) by (apply Z.ltb_ge; lia).
  assert (E2 : (Z.of_nat (length l) <=? Z.of_nat (length l - k)) = false)
    by (apply Z.leb_gt; lia).
  rewrite E1, E2. simpl. now rewrite Nat2Z.id.
Qed.

Lemma getitem_neg_ok {A : Type} (l : list A) (k : nat) :
  (1 <= k <= length l)%nat ->
  exists a, nth_error l (length l - k) = Some a /\ Py.getitem l (- Z.of_nat k) = Ok a.
Proof.
  intros H. rewrite (getitem_neg l k H).
  destruct (nth_error l (length l - k)) as [a|] eqn:E.
  - now exists a.
  - apply nth_error_None in E. lia.
Qed.

Lemma getitem_raises {A : Type} (l : list A) (i : Z) (e : exn) :
  Py.getitem l i = Raise e -> e = IndexError.
Proof.
  unfold Py.getitem.
  destruct (_ || _); [congruence|].
  destruct (nth_error _ _); congruence.
Qed.

Lemma int_raises (s : string) (e : exn) : Py.int s = Raise e -> e = ValueError.
Proof.
  unfold Py.int.
  match goal with |- context [match ?v with Some _ => _ | None => _ end] => destruct v end;
    congruence.
Qed.

Lemma int_cases (s : string) : (exists z, Py.int s = Ok z) \/ Py.int s = Raise ValueError.
Proof.
  destruct (Py.int s) as [z|e] eqn:E; [left; now exists z|right].
  now rewrite (int_raises _ _ E).
Qed.

(** ** The backtracking loop *)

Lemma pop_snoc (path : list string) (x : string) : pop (path ++ [x]) = Ok path.
Proof.
  unfold pop. rewrite removelast_last. now destruct path.
Qed.

(** The loop on an empty stack: it stops at once or the pop raises. *)
Lemma move_back_nil (level prev : Q) :
  move_back level prev [] =
  if Qeq_bool level (prev + 1) then Ok (prev, []) else Raise IndexError.
Proof.
  unfold move_back. simpl. now destruct (Qeq_bool level (prev + 1)).
Qed.

(** The loop on a stack with a last entry: it stops at once, or pops the
    entry, decrements the depth and goes on. *)
Lemma move_back_snoc (level prev : Q) (path : list string) (x : string) :
  move_back level prev (path ++ [x]) =
  if Qeq_bool level (prev + 1) then Ok (prev, (path ++ [x])%list)
  else move_back level (prev - 1) path.
Proof.
  unfold move_back. rewrite length_app, Nat.add_1_r. simpl.
  destruct (Qeq_bool level (prev + 1)); simpl; [reflexivity|].
  now rewrite pop_snoc.
Qed.

Lemma Qnat_S (k : nat) : (Qnat (S k) == Qnat k + 1)%Q.
Proof.
  unfold Qnat. rewrite Nat2Z.inj_succ. unfold Z.succ.
  now rewrite inject_Z_plus.
Qed.

Lemma Qnat_0 : (Qnat 0 == 0)%Q.
Proof. reflexivity. Qed.

(** What the loop computes: it pops [k] entries, for the [k] at which the
    depth meets the decremented previous depth plus one, and raises
    [IndexError] when no [k] up to the height of the stack does. *)
Lemma move_back_spec (level : Q) (path : list string) :
  forall prev : Q,
    (exists (k : nat) (prev' : Q),
        (k <= length path)%nat
        /\ (level == prev - Qnat k + 1)%Q
        /\ (prev' == prev - Qnat k)%Q
        /\ (forall j : nat, (j < k)%nat -> ~ (level == prev - Qnat j + 1)%Q)
        /\ move_back level prev path = Ok (prev', firstn (length path - k) path))
    \/ ((forall k : nat, (k <= length path)%nat -> ~ (level == prev - Qnat k + 1)%Q)
        /\ move_back level prev path = Raise IndexError).
Proof.
  induction path as [|x path IH] using rev_ind; intros prev.
  - rewrite move_back_nil.
    destruct (Qeq_bool level (prev + 1)) eqn:E.
    + left. exists 0%nat, prev. apply Qeq_bool_iff in E.
      repeat split; auto.
      * rewrite E, Qnat_0. lra.
      * rewrite Qnat_0. lra.
      * intros j Hj. lia.
    + right. split; [|reflexivity].
      intros k Hk Heq. simpl in Hk. assert (k = 0%nat) by lia. subst k.
      apply Qeq_bool_neq in E. apply E. rewrite Heq, Qnat_0. lra.
  - rewrite move_back_snoc.
    destruct (Qeq_bool level (prev + 1)) eqn:E.
    + left. exists 0%nat, prev. apply Qeq_bool_iff in E.
      repeat split; auto.
      * lia.
      * rewrite E, Qnat_0. lra.
      * rewrite Qnat_0. lra.
      * intros j Hj. lia.
      * now rewrite Nat.sub_0_r, firstn_all.
    + apply Qeq_bool_neq in E.
      destruct (IH (prev - 1)%Q) as [(k & prev' & Hk & Hl & Hp & Hmin & Hm)|(Hno & Hm)].
      * left. exists (S k), prev'. rewrite length_app, Nat.add_1_r.
        repeat split.
        -- lia.
        -- rewrite Hl, Qnat_S. lra.
        -- rewrite Hp, Qnat_S. lra.
        -- intros j Hj Heq. destruct j as [|j].
           ++ apply E. rewrite Heq, Qnat_0. lra.
           ++ apply (Hmin j); [lia|]. rewrite Heq, Qnat_S. lra.
        -- rewrite Hm. f_equal. f_equal.
           replace (S (length path) - S k)%nat with (length path - k)%nat by lia.
           rewrite firstn_app.
           replace (length path - k - length path)%nat with 0%nat by lia.
           simpl. now rewrite app_nil_r.
      * right. split; [|exact Hm].
        intros k Hk Heq. rewrite length_app, Nat.add_1_r in Hk.
        destruct k as [|k].
        -- apply E. rewrite Heq, Qnat_0. lra.
        -- apply (Hno k); [lia|]. rewrite Heq, Qnat_S. lra.
Qed.


(** ** Strings *)

Lemma append_empty_r (s : string) : s ++ "" = s.
Proof. induction s as [|c s IH]; simpl; [reflexivity|now rewrite IH]. Qed.

Lemma append_assoc_str (s t u : string) : (s ++ t) ++ u = s ++ (t ++ u).
Proof. induction s as [|c s IH]; simpl; [reflexivity|now rewrite IH]. Qed.

(** ** The parser *)

Lemma leading_spaces_other (c : ascii) (s : string) :
  c <> " "%char ->
  count_leading_spaces (String c s) = 0
  /\ drop_leading_spaces (String c s) = String c s.
Proof.
  intros Hc. destruct c as [[] [] [] [] [] [] [] []];
    try (split; reflexivity). now elim Hc.
Qed.

(** The loop over the characters of the name strips the leading spaces and
    counts them. *)
Lemma leading_spaces_loop_spec (chars : string) (spaces : Z) :
  leading_spaces_loop chars chars spaces =
  (drop_leading_spaces chars, spaces + count_leading_spaces chars).
Proof.
  revert spaces. induction chars as [|c chars IH]; intros spaces.
  - simpl. f_equal. lia.
  - destruct (Ascii.eqb_spec c " ") as [->|Hc].
    + change (leading_spaces_loop chars chars (spaces + 1) =
              (drop_leading_spaces chars, spaces + (1 + count_leading_spaces chars))).
      rewrite IH. f_equal. lia.
    + destruct (leading_spaces_other c chars Hc) as [-> ->].
      unfold leading_spaces_loop.
      apply Ascii.eqb_neq in Hc. rewrite Hc. f_equal. lia.
Qed.

Lemma count_leading_spaces_nonneg (s : string) : 0 <= count_leading_spaces s.
Proof.
  induction s as [|c s IH]; [simpl; lia|].
  destruct (Ascii.eqb_spec c " ") as [->|Hc].
  - change (0 <= 1 + count_leading_spaces s). lia.
  - destruct (leading_spaces_other c s Hc) as [-> _]. lia.
Qed.

(** The level type of a split line with at least three fields. *)
Lemma taxid_level_unfold (split_str : list string) (a b : string) :
  (3 <= length split_str)%nat ->
  nth_error split_str (length split_str - 3) = Some a ->
  nth_error split_str (length split_str - 2) = Some b ->
  taxid_level split_str =
  match Py.int a with
  | Ok taxid => Ok (taxid, normalize_rank b)
  | Raise _ =>
      match Py.int b with
      | Ok taxid => Ok (taxid, a)
      | Raise _ => Raise ValueError
      end
  end.
Proof.
  intros Hlen Ha Hb. unfold taxid_level.
  change (-3) with (- Z.of_nat 3). change (-2) with (- Z.of_nat 2).
  rewrite !getitem_neg by lia. rewrite Ha, Hb. simpl.
  destruct (Py.int a) as [t|e] eqn:Ea; simpl; [reflexivity|].
  rewrite (int_raises _ _ Ea). simpl.
  destruct (Py.int b) as [t|e'] eqn:Eb; simpl; [reflexivity|].
  now rewrite (int_raises _ _ Eb).
Qed.

(** The parser on a line with at least four fields. *)
Lemma process_kraken_report_unfold (line f0 f1 : string) (l : list string) :
  fields line = f0 :: f1 :: l -> (2 <= length l)%nat ->
  process_kraken_report line =
  match Py.int f1 with
  | Raise _ => Ok None
  | Ok reads =>
      (percents <- float f0 ;;
       '(taxid, level_type) <- taxid_level (fields line) ;;
       name <- Py.getitem (fields line) (-1) ;;
       Ok (Some (mk_report_vals
                   (Py.replace " " "_" (drop_leading_spaces name))
                   (count_leading_spaces name # 2)
                   level_type reads percents)))%result
  end.
Proof.
  intros Hf Hl. unfold process_kraken_report. cbv zeta. rewrite Hf.
  assert (E : (Z.of_nat (length (f0 :: f1 :: l)) <? 4) = false)
    by (apply Z.ltb_ge; simpl length; lia).
  rewrite E.
  pose proof (getitem_nonneg (f0 :: f1 :: l) 1 f1 eq_refl) as G1.
  pose proof (getitem_nonneg (f0 :: f1 :: l) 0 f0 eq_refl) as G0.
  change (Z.of_nat 1) with 1 in G1. change (Z.of_nat 0) with 0 in G0.
  rewrite G1, G0. simpl rbind at 1.
  destruct (Py.int f1) as [reads|e] eqn:E1.
  - simpl. destruct (float f0) as [x|e]; simpl; [|reflexivity].
    rewrite E1. simpl.
    destruct (taxid_level (f0 :: f1 :: l)) as [[taxid lt]|e]; simpl; [|reflexivity].
    destruct (Py.getitem (f0 :: f1 :: l) (-1)) as [nm|e]; simpl; [|reflexivity].
    rewrite leading_spaces_loop_spec. reflexivity.
  - now rewrite (int_raises _ _ E1).
Qed.

(** Fewer than four fields: no record. *)
Lemma process_kraken_report_short (line : string) :
  (length (fields line) < 4)%nat -> process_kraken_report line = Ok None.
Proof.
  intros H. unfold process_kraken_report. cbv zeta.
  assert (E : (Z.of_nat (length (fields line)) <? 4) = true) by (apply Z.ltb_lt; lia).
  now rewrite E.
Qed.

Lemma four_fields (line : string) :
  (4 <= length (fields line))%nat ->
  exists f0 f1 l, fields line = f0 :: f1 :: l /\ (2 <= length l)%nat.
Proof.
  intros H. destruct (fields line) as [|f0 [|f1 l]]; simpl in H; try lia.
  exists f0, f1, l. split; [reflexivity|lia].
Qed.

(** What a record tells about its line. *)
Lemma process_kraken_report_some (line : string) (vals : report_vals) :
  process_kraken_report line = Ok (Some vals) ->
  exists (f0 f1 name0 : string) (l : list string) (taxid : Z),
    fields line = f0 :: f1 :: l /\ (2 <= length l)%nat
    /\ Py.int f1 = Ok (all_reads vals)
    /\ float_of_string f0 = Some (percents vals)
    /\ taxid_level (fields line) = Ok (taxid, level_type vals)
    /\ Py.getitem (fields line) (-1) = Ok name0
    /\ name vals = Py.replace " " "_" (drop_leading_spaces name0)
    /\ level_num vals = count_leading_spaces name0 # 2.
Proof.
  intros H.
  destruct (Nat.lt_ge_cases (length (fields line)) 4) as [Hs|Hl].
  - rewrite (process_kraken_report_short _ Hs) in H. discriminate.
  - destruct (four_fields _ Hl) as (f0 & f1 & l & Hf & Hlen).
    rewrite (process_kraken_report_unfold _ _ _ _ Hf Hlen) in H.
    destruct (Py.int f1) as [reads|e] eqn:E1; [|discriminate].
    unfold float in H.
    destruct (float_of_string f0) as [x|] eqn:E0; simpl in H; [|discriminate].
    destruct (taxid_level (fields line)) as [[taxid lt]|e] eqn:Et; simpl in H;
      [|discriminate].
    destruct (Py.getitem (fields line) (-1)) as [nm|e] eqn:En; simpl in H;
      [|discriminate].
    injection H as <-. simpl.
    exists f0, f1, nm, l, taxid. repeat split; auto.
Qed.

Lemma level_num_nonneg (line : string) (vals : report_vals) :
  process_kraken_report line = Ok (Some vals) -> (0 <= level_num vals)%Q.
Proof.
  intros H.
  destruct (process_kraken_report_some _ _ H)
    as (f0 & f1 & nm & l & taxid & _ & _ & _ & _ & _ & _ & _ & ->).
  unfold Qle. simpl. pose proof (count_leading_spaces_nonneg nm). lia.
Qed.


(** ** One turn of the loop over the lines *)

Lemma loop_body_raise (self : plugin) (st : tracker) (line : string) (e : exn) :
  process_kraken_report line = Raise e ->
  loop_body self st line = (EmptyString, Raise e).
Proof. intros H. unfold loop_body. now rewrite H. Qed.

Lemma loop_body_skip (self : plugin) (st : tracker) (line : string) :
  process_kraken_report line = Ok None ->
  loop_body self st line = (EmptyString, Ok st).
Proof. intros H. unfold loop_body. now rewrite H. Qed.

Lemma loop_body_unclassified (self : plugin) (st : tracker) (line : string)
    (vals : report_vals) :
  process_kraken_report line = Ok (Some vals) ->
  (level_type vals =? "U")%string = true ->
  loop_body self st line = (EmptyString, Ok st).
Proof. intros H HU. unfold loop_body. rewrite H. simpl. now rewrite HU. Qed.

Lemma loop_body_first (self : plugin) (st : tracker) (line : string)
    (vals : report_vals) :
  process_kraken_report line = Ok (Some vals) ->
  (level_type vals =? "U")%string = false ->
  Qeq_bool (prev_lvl_num st) (-1 # 1) = true ->
  loop_body self st line =
  (EmptyString, Ok (mk_tracker (curr_path st ++ [level_str_of vals]) (level_num vals))).
Proof.
  intros H HU HE. unfold loop_body. rewrite H. simpl. now rewrite HU, HE.
Qed.

Lemma loop_body_active_raise (self : plugin) (st : tracker) (line : string)
    (vals : report_vals) (e : exn) :
  process_kraken_report line = Ok (Some vals) ->
  (level_type vals =? "U")%string = false ->
  active st ->
  move_back (level_num vals) (prev_lvl_num st) (curr_path st) = Raise e ->
  loop_body self st line = (EmptyString, Raise e).
Proof.
  intros H HU HA HM. unfold loop_body. rewrite H. simpl. rewrite HU, HA.
  unfold lift. now rewrite HM.
Qed.

(** The loop over the stack writes its segments, when no entry is empty. *)
Lemma write_ancestors_lineage (self : plugin) (path : list string) :
  Forall (fun entry => entry <> EmptyString) path ->
  write_ancestors self path = (lineage self path, Ok tt).
Proof.
  induction 1 as [|entry path Hne _ IH]; [reflexivity|].
  destruct entry as [|c r]; [now elim Hne|].
  unfold lineage in *. simpl. rewrite IH. unfold bind, lift, write, ret.
  destruct (c =? "x")%char, (x_include self =? "True")%string, (c =? "r")%char;
    simpl; rewrite ?append_empty_r; reflexivity.
Qed.

(** Lines 171-181 write the line of the record, or nothing. *)
Lemma write_level_emitted (self : plugin) (path : list string)
    (level_type level_str : string) (vals : report_vals) :
  Forall (fun entry => entry <> EmptyString) path ->
  write_level self path level_type level_str vals =
  (if emitted self level_type then mpa_line self path level_str vals else EmptyString,
   Ok tt).
Proof.
  intros Hne. unfold write_level, emitted.
  replace ((level_type =? "x")%string && (x_include self =? "True")%string
           || negb (level_type =? "x")%string)
    with (negb (level_type =? "x")%string || (x_include self =? "True")%string)
    by (destruct (level_type =? "x")%string, (x_include self =? "True")%string;
        reflexivity).
  destruct (negb (level_type =? "x")%string || (x_include self =? "True")%string);
    [|reflexivity].
  rewrite (write_ancestors_lineage self path Hne).
  unfold mpa_line, metric, bind, write.
  destruct (use_reads self =? "True")%string; reflexivity.
Qed.

Lemma loop_body_active_ok (self : plugin) (st : tracker) (line : string)
    (vals : report_vals) (prev' : Q) (path' : list string) :
  process_kraken_report line = Ok (Some vals) ->
  (level_type vals =? "U")%string = false ->
  active st ->
  move_back (level_num vals) (prev_lvl_num st) (curr_path st) = Ok (prev', path') ->
  Forall (fun entry => entry <> EmptyString) path' ->
  loop_body self st line =
  (if emitted self (display_level (level_type vals))
   then mpa_line self path' (level_str_of vals) vals else EmptyString,
   Ok (mk_tracker (path' ++ [level_str_of vals]) (level_num vals))).
Proof.
  intros H HU HA HM Hne. unfold loop_body. rewrite H. simpl. rewrite HU, HA.
  unfold lift. rewrite HM. simpl.
  rewrite (write_level_emitted self path' _ _ vals Hne).
  unfold ret. simpl. now rewrite append_empty_r.
Qed.

(** ** The loop over the lines *)

Lemma for_lines_cons_ok (self : plugin) (st st' : tracker) (line : string)
    (rest : list string) (w : string) :
  loop_body self st line = (w, Ok st') ->
  for_lines self (line :: rest) st =
  (w ++ fst (for_lines self rest st'), snd (for_lines self rest st')).
Proof.
  intros H. simpl. unfold bind. rewrite H.
  now destruct (for_lines self rest st').
Qed.

Lemma for_lines_cons_raise (self : plugin) (st : tracker) (line : string)
    (rest : list string) (w : string) (e : exn) :
  loop_body self st line = (w, Raise e) ->
  for_lines self (line :: rest) st = (w, Raise e).
Proof. intros H. simpl. unfold bind. now rewrite H. Qed.

Lemma for_lines_app (self : plugin) (pre rest : list string) (st st' : tracker)
    (w : string) :
  for_lines self pre st = (w, Ok st') ->
  for_lines self (pre ++ rest) st =
  (w ++ fst (for_lines self rest st'), snd (for_lines self rest st')).
Proof.
  revert st w. induction pre as [|line pre IH]; intros st w H.
  - simpl in H. injection H as <- <-. simpl. now destruct (for_lines self rest st).
  - simpl in H. unfold bind in H.
    destruct (loop_body self st line) as [w1 [st1|e]] eqn:E1; [|discriminate].
    destruct (for_lines self pre st1) as [w2 [st2|e]] eqn:E2; [|discriminate].
    injection H as <- <-.
    simpl app. rewrite (for_lines_cons_ok _ _ _ _ _ _ E1).
    rewrite (IH _ _ E2). simpl. now rewrite append_assoc_str.
Qed.

(** A line on which the body raises ends the pass: what was written stays,
    no later line is read. *)
Lemma output_aborts (self : plugin) (pre rest : list string) (line : string)
    (st : tracker) (w w' : string) (e : exn) :
  for_lines self pre initial = (w, Ok st) ->
  loop_body self st line = (w', Raise e) ->
  output self (pre ++ line :: rest) = (header_text self ++ w ++ w', Raise e).
Proof.
  intros Hpre Hbody. unfold output.
  rewrite (for_lines_app _ _ (line :: rest) _ _ _ Hpre).
  rewrite (for_lines_cons_raise _ _ _ rest _ _ Hbody). simpl.
  unfold header_text, bind, write, ret.
  destruct (add_header self =? "True")%string; reflexivity.
Qed.


(** ** The tracker *)

Lemma Qnat_sub (a b : nat) : (b <= a)%nat -> (Qnat (a - b) == Qnat a - Qnat b)%Q.
Proof.
  intros H. unfold Qnat. rewrite Nat2Z.inj_sub by exact H.
  unfold Z.sub. rewrite inject_Z_plus, inject_Z_opp. lra.
Qed.

(** When the loop ends without an exception it has popped [k] entries, for
    the first [k] at which the depths meet. *)
Lemma move_back_ok (level prev prev' : Q) (path path' : list string) :
  move_back level prev path = Ok (prev', path') ->
  exists k : nat,
    (k <= length path)%nat
    /\ (level == prev - Qnat k + 1)%Q
    /\ (prev' == prev - Qnat k)%Q
    /\ (forall j : nat, (j < k)%nat -> ~ (level == prev - Qnat j + 1)%Q)
    /\ path' = firstn (length path - k) path.
Proof.
  intros H.
  destruct (move_back_spec level path prev)
    as [(k & p & Hk & Hl & Hp & Hmin & Hm)|(_ & Hm)]; rewrite Hm in H;
    [|discriminate].
  injection H as <- <-. exists k. repeat split; auto.
Qed.

Lemma move_back_raises (level prev : Q) (path : list string) (e : exn) :
  move_back level prev path = Raise e -> e = IndexError.
Proof.
  intros H.
  destruct (move_back_spec level path prev)
    as [(k & p & _ & _ & _ & _ & Hm)|(_ & Hm)]; rewrite Hm in H; congruence.
Qed.

Lemma make_level_str_nonempty (level_type name : string) :
  make_level_str level_type name <> EmptyString.
Proof.
  unfold make_level_str. destruct (Py.lower level_type); simpl; discriminate.
Qed.

(** The state after a record in the active state, when the body ends
    without an exception. *)
Lemma loop_body_active_state (self : plugin) (st st' : tracker) (line w : string)
    (vals : report_vals) (prev' : Q) (path' : list string) :
  process_kraken_report line = Ok (Some vals) ->
  (level_type vals =? "U")%string = false ->
  active st ->
  move_back (level_num vals) (prev_lvl_num st) (curr_path st) = Ok (prev', path') ->
  loop_body self st line = (w, Ok st') ->
  st' = mk_tracker (path' ++ [level_str_of vals]) (level_num vals).
Proof.
  intros H HU HA HM. unfold loop_body. rewrite H. simpl. rewrite HU, HA.
  unfold lift. rewrite HM. simpl.
  unfold bind, ret.
  destruct (write_level self path' _ _ vals) as [w1 [[]|e]]; intros Heq;
    [now injection Heq as _ <-|discriminate].
Qed.

Lemma negative_not_level (line : string) (vals : report_vals) :
  process_kraken_report line = Ok (Some vals) ->
  Qeq_bool (level_num vals) (-1 # 1) = false.
Proof.
  intros H. pose proof (level_num_nonneg _ _ H) as Hn.
  destruct (Qeq_bool (level_num vals) (-1 # 1)) eqn:E; [|reflexivity].
  apply Qeq_bool_iff in E. lra.
Qed.

Lemma Forall_prefix {A : Type} (P : A -> Prop) (l : list A) :
  Forall P l -> forall n : nat, Forall P (firstn n l).
Proof.
  induction 1 as [|a l Ha _ IH]; intros [|n]; simpl; constructor; auto.
Qed.

(** No entry of the stack is ever the empty string. *)
Lemma loop_body_nonempty (self : plugin) (st st' : tracker) (line w : string) :
  Forall (fun entry => entry <> EmptyString) (curr_path st) ->
  loop_body self st line = (w, Ok st') ->
  Forall (fun entry => entry <> EmptyString) (curr_path st').
Proof.
  intros Hne Hb.
  destruct (process_kraken_report line) as [[vals|]|e] eqn:Hp.
  - destruct (level_type vals =? "U")%string eqn:HU.
    + rewrite (loop_body_unclassified _ _ _ _ Hp HU) in Hb. now injection Hb as _ <-.
    + destruct (Qeq_bool (prev_lvl_num st) (-1 # 1)) eqn:HA.
      * rewrite (loop_body_first _ _ _ _ Hp HU HA) in Hb. injection Hb as _ <-.
        simpl. apply Forall_app. split; [exact Hne|].
        constructor; [apply make_level_str_nonempty|constructor].
      * destruct (move_back (level_num vals) (prev_lvl_num st) (curr_path st))
          as [[prev' path']|e] eqn:HM.
        -- rewrite (loop_body_active_state _ _ _ _ _ _ _ _ Hp HU HA HM Hb). simpl.
           apply Forall_app. split.
           ++ destruct (move_back_ok _ _ _ _ _ HM) as (k & _ & _ & _ & _ & ->).
              now apply Forall_prefix.
           ++ constructor; [apply make_level_str_nonempty|constructor].
        -- rewrite (loop_body_active_raise _ _ _ _ _ Hp HU HA HM) in Hb. discriminate.
  - rewrite (loop_body_skip _ _ _ Hp) in Hb. now injection Hb as _ <-.
  - rewrite (loop_body_raise _ _ _ _ Hp) in Hb. discriminate.
Qed.

Lemma for_lines_nonempty (self : plugin) (lines : list string) :
  forall (st st' : tracker) (w : string),
    Forall (fun entry => entry <> EmptyString) (curr_path st) ->
    for_lines self lines st = (w, Ok st') ->
    Forall (fun entry => entry <> EmptyString) (curr_path st').
Proof.
  induction lines as [|line lines IH]; intros st st' w Hne H.
  - simpl in H. now injection H as _ <-.
  - simpl in H. unfold bind in H.
    destruct (loop_body self st line) as [w1 [st1|e]] eqn:E1; [|discriminate].
    destruct (for_lines self lines st1) as [w2 [st2|e]] eqn:E2; [|discriminate].
    injection H as _ <-.
    exact (IH _ _ _ (loop_body_nonempty _ _ _ _ _ Hne E1) E2).
Qed.


(** C1. A record that is not unclassified, taken in the active state once the
    backtracking loop has restored [level_num = prev_lvl_num + 1]: a line is
    written exactly when the display rank is not [x] or the intermediate
    ranks are included; the line is the stack from the root on, without the
    [x] entries (when the intermediate ranks are excluded) and without the
    [r] entries, each entry followed by a bar, then the level string of the
    record, a tab, the read count or the percent, and a new line; written or
    not, the level string is pushed and [prev_lvl_num] becomes the depth of
    the record. No entry of the stack is the empty string, which holds of
    every stack that the tracker builds ([for_lines_nonempty]). *)
Theorem active_record_emission (self : plugin) (st : tracker) (line : string)
    (vals : report_vals) (prev' : Q) (path' : list string) :
  process_kraken_report line = Ok (Some vals) ->
  level_type vals <> "U" ->
  active st ->
  Forall (fun entry => entry <> EmptyString) (curr_path st) ->
  move_back (level_num vals) (prev_lvl_num st) (curr_path st) = Ok (prev', path') ->
  (level_num vals == prev' + 1)%Q
  /\ (emitted self (display_level (level_type vals)) = true <->
      display_level (level_type vals) <> "x" \/ x_include self = "True")
  /\ level_str_of vals
     = Py.lower (display_level (level_type vals)) ++ "__" ++ name vals
  /\ loop_body self st line =
     (if emitted self (display_level (level_type vals))
      then lineage self path' ++ level_str_of vals
           ++ String Py.tab (metric self vals) ++ String Py.newline EmptyString
      else EmptyString,
      Ok (mk_tracker (path' ++ [level_str_of vals]) (level_num vals))).
Proof.
  intros Hp HU HA Hne HM.
  apply String.eqb_neq in HU.
  destruct (move_back_ok _ _ _ _ _ HM) as (k & Hk & Hl & Hprev & _ & Hpath).
  split; [rewrite Hl, Hprev; lra|].
  split.
  - unfold emitted. rewrite orb_true_iff, negb_true_iff, String.eqb_neq, String.eqb_eq.
    reflexivity.
  - split; [reflexivity|].
    apply (loop_body_active_ok self st line vals prev' path' Hp HU HA HM).
    subst path'. now apply Forall_prefix.
Qed.

(** C2, as amended. In the active state the tracker pops one entry and takes
    one from [prev_lvl_num] for as long as the depth of the record differs
    from [prev_lvl_num + 1]; when the stack is exhausted before the depths
    meet, the program raises no error of its own: the pop of the empty stack
    raises the [IndexError] of [list.pop], which nothing guards or catches,
    nothing is written for the record and the pass ends with that
    exception. *)
Theorem backtracking_pops_or_aborts (self : plugin) (st : tracker) (line : string)
    (vals : report_vals) :
  process_kraken_report line = Ok (Some vals) ->
  level_type vals <> "U" ->
  active st ->
  (exists (k : nat) (prev' : Q),
      (k <= length (curr_path st))%nat
      /\ (level_num vals == prev_lvl_num st - Qnat k + 1)%Q
      /\ (forall j : nat, (j < k)%nat ->
            ~ (level_num vals == prev_lvl_num st - Qnat j + 1)%Q)
      /\ (prev' == prev_lvl_num st - Qnat k)%Q
      /\ move_back (level_num vals) (prev_lvl_num st) (curr_path st)
         = Ok (prev', firstn (length (curr_path st) - k) (curr_path st)))
  \/ ((forall k : nat, (k <= length (curr_path st))%nat ->
         ~ (level_num vals == prev_lvl_num st - Qnat k + 1)%Q)
      /\ move_back (level_num vals) (prev_lvl_num st) (curr_path st) = Raise IndexError
      /\ loop_body self st line = (EmptyString, Raise IndexError)
      /\ (forall rest : list string,
            for_lines self (line :: rest) st = (EmptyString, Raise IndexError))
      /\ (forall (pre rest : list string) (w : string),
            for_lines self pre initial = (w, Ok st) ->
            output self (pre ++ line :: rest)
            = (header_text self ++ w ++ EmptyString, Raise IndexError))).
Proof.
  intros Hp HU HA. apply String.eqb_neq in HU.
  destruct (move_back_spec (level_num vals) (curr_path st) (prev_lvl_num st))
    as [(k & prev' & Hk & Hl & Hprev & Hmin & Hm)|(Hno & Hm)].
  - left. exists k, prev'. repeat split; auto.
  - right.
    pose proof (loop_body_active_raise self st line vals _ Hp HU HA Hm) as Hb.
    repeat split; auto.
    + intros rest. exact (for_lines_cons_raise _ _ _ rest _ _ Hb).
    + intros pre rest w Hpre. exact (output_aborts _ _ rest _ _ _ _ _ Hpre Hb).
Qed.

(** C10. A record in the active state whose depth is more than
    [prev_lvl_num + 1]: the depths never meet, whatever the number of
    entries popped; the loop empties the stack, the pop of the empty stack
    raises [IndexError], and nothing is written for the record. *)
Theorem upward_jump_aborts (self : plugin) (st : tracker) (line : string)
    (vals : report_vals) :
  process_kraken_report line = Ok (Some vals) ->
  level_type vals <> "U" ->
  active st ->
  (prev_lvl_num st + 1 < level_num vals)%Q ->
  (forall k : nat, ~ (level_num vals == prev_lvl_num st - Qnat k + 1)%Q)
  /\ move_back (level_num vals) (prev_lvl_num st) (curr_path st) = Raise IndexError
  /\ loop_body self st line = (EmptyString, Raise IndexError)
  /\ (forall rest : list string,
        for_lines self (line :: rest) st = (EmptyString, Raise IndexError)).
Proof.
  intros Hp HU HA Hgt. apply String.eqb_neq in HU.
  assert (Hnever : forall k : nat,
             ~ (level_num vals == prev_lvl_num st - Qnat k + 1)%Q).
  { intros k Heq.
    assert (0 <= Qnat k)%Q
      by (unfold Qnat; change 0%Q with (inject_Z 0); rewrite <- Zle_Qle; lia).
    lra. }
  split; [exact Hnever|].
  destruct (move_back_spec (level_num vals) (curr_path st) (prev_lvl_num st))
    as [(k & prev' & _ & Hl & _)|(_ & Hm)]; [now elim (Hnever k)|].
  pose proof (loop_body_active_raise self st line vals _ Hp HU HA Hm) as Hb.
  repeat split; auto.
  intros rest. exact (for_lines_cons_raise _ _ _ rest _ _ Hb).
Qed.

(** C9. Under the invariant that the height of the stack is
    [prev_lvl_num + 1], a record in the active state whose depth is an
    integer [d] with [0 <= d <= prev_lvl_num + 1]: the loop ends without
    popping an empty stack and leaves the first [d] entries. A record at
    depth 0 empties the stack; its line, when the rank rule lets it be
    written, has no ancestor before the level string; and the level string
    becomes the only entry of the stack. *)
Theorem nested_record_backtracks_safely (self : plugin) (st : tracker)
    (line : string) (vals : report_vals) (d : Z) :
  process_kraken_report line = Ok (Some vals) ->
  level_type vals <> "U" ->
  active st ->
  (Qnat (length (curr_path st)) == prev_lvl_num st + 1)%Q ->
  (level_num vals == inject_Z d)%Q ->
  0 <= d ->
  (level_num vals <= prev_lvl_num st + 1)%Q ->
  (exists prev' : Q,
      move_back (level_num vals) (prev_lvl_num st) (curr_path st)
      = Ok (prev', firstn (Z.to_nat d) (curr_path st))
      /\ (level_num vals == prev' + 1)%Q
      /\ (Z.to_nat d <= length (curr_path st))%nat)
  /\ (d = 0 ->
      loop_body self st line =
      (if emitted self (display_level (level_type vals))
       then level_str_of vals ++ String Py.tab (metric self vals)
            ++ String Py.newline EmptyString
       else EmptyString,
       Ok (mk_tracker [level_str_of vals] (level_num vals)))).
Proof.
  intros Hp HU HA Hinv Hd Hd0 Hle. apply String.eqb_neq in HU.
  assert (Hdl : d <= Z.of_nat (length (curr_path st))).
  { rewrite Zle_Qle. fold (Qnat (length (curr_path st))). lra. }
  assert (Hex : exists prev' : Q,
             move_back (level_num vals) (prev_lvl_num st) (curr_path st)
             = Ok (prev', firstn (Z.to_nat d) (curr_path st))
             /\ (level_num vals == prev' + 1)%Q).
  { destruct (move_back_spec (level_num vals) (curr_path st) (prev_lvl_num st))
      as [(k & prev' & Hk & Hl & Hprev & _ & Hm)|(Hno & _)].
    - exists prev'. split; [|rewrite Hl, Hprev; lra].
      assert (Heq : (inject_Z d == Qnat (length (curr_path st) - k))%Q)
        by (rewrite (Qnat_sub _ _ Hk); lra).
      unfold Qnat in Heq. apply (proj1 (inject_Z_injective _ _)) in Heq.
      replace (Z.to_nat d) with (length (curr_path st) - k)%nat by lia.
      exact Hm.
    - exfalso. apply (Hno (length (curr_path st) - Z.to_nat d)%nat); [lia|].
      rewrite Qnat_sub by lia.
      assert (Hq : (Qnat (Z.to_nat d) == inject_Z d)%Q)
        by (unfold Qnat; now rewrite Z2Nat.id).
      rewrite Hq. lra. }
  split.
  - destruct Hex as (prev' & Hm & Hl). exists prev'. repeat split; auto. lia.
  - intros ->. destruct Hex as (prev' & Hm & _). simpl in Hm.
    rewrite (loop_body_active_ok self st line vals prev' [] Hp HU HA Hm (Forall_nil _)).
    reflexivity.
Qed.


(** ** The height of the stack *)

Lemma loop_body_active_inv (self : plugin) (st st' : tracker) (line w : string)
    (d0 : Q) :
  active st -> height_inv d0 st ->
  loop_body self st line = (w, Ok st') ->
  active st' /\ height_inv d0 st'.
Proof.
  intros HA Hinv Hb.
  destruct (process_kraken_report line) as [[vals|]|e] eqn:Hp.
  - destruct (level_type vals =? "U")%string eqn:HU.
    + rewrite (loop_body_unclassified _ _ _ _ Hp HU) in Hb. injection Hb as _ <-.
      now split.
    + destruct (move_back (level_num vals) (prev_lvl_num st) (curr_path st))
        as [[prev' path']|e] eqn:HM.
      * rewrite (loop_body_active_state _ _ _ _ _ _ _ _ Hp HU HA HM Hb).
        split; [exact (negative_not_level _ _ Hp)|].
        destruct (move_back_ok _ _ _ _ _ HM) as (k & Hk & Hl & _ & _ & ->).
        unfold height_inv in *. simpl.
        rewrite length_app, length_firstn, Nat.min_l by lia. simpl length.
        fold (Qnat (length (curr_path st) - k + 1)).
        fold (Qnat (length (curr_path st))) in Hinv.
        rewrite Nat.add_1_r, Qnat_S, Qnat_sub by exact Hk. lra.
      * rewrite (loop_body_active_raise _ _ _ _ _ Hp HU HA HM) in Hb. discriminate.
  - rewrite (loop_body_skip _ _ _ Hp) in Hb. injection Hb as _ <-. now split.
  - rewrite (loop_body_raise _ _ _ _ Hp) in Hb. discriminate.
Qed.

Lemma for_lines_active_inv (self : plugin) (lines : list string) (d0 : Q) :
  forall (st st' : tracker) (w : string),
    active st -> height_inv d0 st ->
    for_lines self lines st = (w, Ok st') ->
    active st' /\ height_inv d0 st'.
Proof.
  induction lines as [|line lines IH]; intros st st' w HA Hinv H.
  - simpl in H. injection H as _ <-. now split.
  - simpl in H. unfold bind in H.
    destruct (loop_body self st line) as [w1 [st1|e]] eqn:E1; [|discriminate].
    destruct (for_lines self lines st1) as [w2 [st2|e]] eqn:E2; [|discriminate].
    injection H as _ <-.
    destruct (loop_body_active_inv _ _ _ _ _ _ HA Hinv E1) as [HA1 Hinv1].
    exact (IH _ _ _ HA1 Hinv1 E2).
Qed.

(** From the empty tracker: nothing is pushed before the first record that
    is not unclassified, and from that record on the height follows the
    depth, counted from the depth of that record. *)
Lemma for_lines_initial_inv (self : plugin) (lines : list string) :
  forall (st : tracker) (w : string),
    for_lines self lines initial = (w, Ok st) ->
    match first_depth lines with
    | None => st = initial
    | Some d0 => active st /\ height_inv d0 st
    end.
Proof.
  induction lines as [|line lines IH]; intros st w H.
  - simpl in H. now injection H as _ <-.
  - simpl in H. unfold bind in H.
    destruct (loop_body self initial line) as [w1 [st1|e]] eqn:E1; [|discriminate].
    destruct (for_lines self lines st1) as [w2 [st2|e]] eqn:E2; [|discriminate].
    injection H as _ <-. simpl first_depth.
    destruct (process_kraken_report line) as [[vals|]|e] eqn:Hp.
    + destruct (level_type vals =? "U")%string eqn:HU.
      * rewrite (loop_body_unclassified _ _ _ _ Hp HU) in E1. injection E1 as _ <-.
        exact (IH _ _ E2).
      * rewrite (loop_body_first self initial _ _ Hp HU eq_refl) in E1.
        injection E1 as _ <-.
        apply (for_lines_active_inv self lines (level_num vals) _ _ _) with (3 := E2).
        -- exact (negative_not_level _ _ Hp).
        -- unfold height_inv. simpl. change (inject_Z 1) with 1%Q. lra.
    + rewrite (loop_body_skip _ _ _ Hp) in E1. injection E1 as _ <-.
      exact (IH _ _ E2).
    + rewrite (loop_body_raise _ _ _ _ Hp) in E1. discriminate.
Qed.

Lemma for_lines_app_ok (self : plugin) (pre rest : list string) :
  forall (st st' : tracker) (w : string),
    for_lines self (pre ++ rest) st = (w, Ok st') ->
    exists (w1 w2 : string) (st1 : tracker),
      for_lines self pre st = (w1, Ok st1)
      /\ for_lines self rest st1 = (w2, Ok st').
Proof.
  induction pre as [|line pre IH]; intros st st' w H.
  - exists EmptyString, w, st. split; [reflexivity|exact H].
  - simpl in H. unfold bind in H.
    destruct (loop_body self st line) as [w1 [st1|e]] eqn:E1; [|discriminate].
    destruct (for_lines self (pre ++ rest) st1) as [w2 [st2|e]] eqn:E2; [|discriminate].
    injection H as _ <-.
    destruct (IH _ _ _ E2) as (wa & wb & sta & Ha & Hb).
    exists (w1 ++ wa), wb, sta. split; [|exact Hb].
    simpl. unfold bind. now rewrite E1, Ha.
Qed.

Lemma loop_body_record_prev (self : plugin) (st st' : tracker) (line w : string)
    (vals : report_vals) :
  process_kraken_report line = Ok (Some vals) ->
  (level_type vals =? "U")%string = false ->
  loop_body self st line = (w, Ok st') ->
  prev_lvl_num st' = level_num vals.
Proof.
  intros Hp HU Hb.
  destruct (Qeq_bool (prev_lvl_num st) (-1 # 1)) eqn:HA.
  - rewrite (loop_body_first _ _ _ _ Hp HU HA) in Hb. now injection Hb as _ <-.
  - destruct (move_back (level_num vals) (prev_lvl_num st) (curr_path st))
      as [[prev' path']|e] eqn:HM.
    + now rewrite (loop_body_active_state _ _ _ _ _ _ _ _ Hp HU HA HM Hb).
    + rewrite (loop_body_active_raise _ _ _ _ _ Hp HU HA HM) in Hb. discriminate.
Qed.

(** C4, as amended. When the pass reaches a record that is not unclassified
    without an exception, the height of the stack after the record is the
    depth of the record, less the depth of the first such record of the
    report, plus one; it is the depth plus one when the report starts at
    depth 0. *)
Theorem stack_height_tracks_depth (self : plugin) (pre : list string)
    (line w : string) (vals : report_vals) (st : tracker) :
  for_lines self (pre ++ [line]) initial = (w, Ok st) ->
  process_kraken_report line = Ok (Some vals) ->
  level_type vals <> "U" ->
  exists d0 : Q,
    first_depth (pre ++ [line]) = Some d0
    /\ (Qnat (length (curr_path st)) == level_num vals - d0 + 1)%Q
    /\ ((d0 == 0)%Q -> (Qnat (length (curr_path st)) == level_num vals + 1)%Q).
Proof.
  intros H Hp HU. apply String.eqb_neq in HU.
  destruct (for_lines_app_ok _ _ _ _ _ _ H) as (w1 & w2 & st1 & _ & Hlast).
  simpl in Hlast. unfold bind in Hlast.
  destruct (loop_body self st1 line) as [w3 [st3|e]] eqn:E3; [|discriminate].
  simpl in Hlast. injection Hlast as _ <-.
  pose proof (loop_body_record_prev _ _ _ _ _ _ Hp HU E3) as Hprev.
  pose proof (for_lines_initial_inv _ _ _ _ H) as Hinv.
  destruct (first_depth (pre ++ [line])) as [d0|].
  - exists d0. destruct Hinv as [_ Hinv]. unfold height_inv in Hinv.
    rewrite Hprev in Hinv. fold (Qnat (length (curr_path st3))) in Hinv.
    split; [reflexivity|]. split; [exact Hinv|]. intros Hz. rewrite Hinv. lra.
  - exfalso. subst st3. pose proof (negative_not_level _ _ Hp) as Hn.
    rewrite <- Hprev in Hn. discriminate.
Qed.


(** ** The parser: claims *)

Lemma last_field (line : string) :
  exists field : string, Py.getitem (fields line) (-1) = Ok field.
Proof.
  assert (H : (1 <= 1 <= length (fields line))%nat).
  { split; [lia|]. unfold fields.
    destruct (Py.strip line) as [|c r]; simpl; [lia|].
    destruct (c =? Py.tab)%char; simpl; [lia|].
    destruct (Py.split Py.tab r); simpl; lia. }
  destruct (getitem_neg_ok (fields line) 1 H) as (a & _ & Ha).
  now exists a.
Qed.

(** C3, as amended. For a line with at least four fields, the parser first
    reads the third-from-last field as the integer taxonomy ID, and then the
    second-from-last field is the rank word, normalized through the table;
    only when the third-from-last field is not an integer does it read the
    second-from-last field as the taxonomy ID and take the third-from-last
    field, as it stands, as the rank code. With an integer second field and
    a percent that parses, both layouts yield a record; a line in neither
    layout raises [ValueError]. *)
Theorem taxid_field_tried_first (line a b f0 f1 : string) (reads : Z) (x : pyfloat) :
  (4 <= length (fields line))%nat ->
  nth_error (fields line) (length (fields line) - 3) = Some a ->
  nth_error (fields line) (length (fields line) - 2) = Some b ->
  nth_error (fields line) 0 = Some f0 ->
  nth_error (fields line) 1 = Some f1 ->
  Py.int f1 = Ok reads ->
  float_of_string f0 = Some x ->
  (forall taxid : Z, Py.int a = Ok taxid ->
     taxid_level (fields line) = Ok (taxid, normalize_rank b)
     /\ exists vals, process_kraken_report line = Ok (Some vals)
                     /\ level_type vals = normalize_rank b)
  /\ (forall taxid : Z, Py.int a = Raise ValueError -> Py.int b = Ok taxid ->
       taxid_level (fields line) = Ok (taxid, a)
       /\ exists vals, process_kraken_report line = Ok (Some vals)
                       /\ level_type vals = a)
  /\ (Py.int a = Raise ValueError -> Py.int b = Raise ValueError ->
       taxid_level (fields line) = Raise ValueError
       /\ process_kraken_report line = Raise ValueError).
Proof.
  intros Hlen Ha Hb H0 H1 Hreads Hx.
  assert (Hlen3 : (3 <= length (fields line))%nat) by lia.
  assert (Ht := taxid_level_unfold (fields line) a b Hlen3 Ha Hb).
  destruct (four_fields _ Hlen) as (g0 & g1 & l & Hf & Hl).
  assert (Hu := process_kraken_report_unfold line g0 g1 l Hf Hl).
  rewrite Hf in H0, H1. simpl in H0, H1.
  injection H0 as ->. injection H1 as ->.
  rewrite Hreads in Hu. unfold float in Hu. rewrite Hx in Hu. simpl in Hu.
  destruct (last_field line) as (nm & Hnm). rewrite Hnm in Hu.
  repeat split.
  - rewrite Ht. now rewrite H.
  - rewrite Ht, H in Hu. simpl in Hu. eexists. split; [exact Hu|reflexivity].
  - rewrite Ht. now rewrite H, H0.
  - rewrite Ht, H, H0 in Hu. simpl in Hu. eexists. split; [exact Hu|reflexivity].
  - rewrite Ht. now rewrite H, H0.
  - rewrite Ht, H, H0 in Hu. exact Hu.
Qed.

(** C5. The depth of a record is half the number of leading spaces of the
    name field, as an exact rational; the name is the field without these
    spaces, its other spaces replaced by underscores. *)
Theorem depth_is_half_leading_spaces (line : string) (vals : report_vals) :
  process_kraken_report line = Ok (Some vals) ->
  exists field : string,
    Py.getitem (fields line) (-1) = Ok field
    /\ level_num vals = count_leading_spaces field # 2
    /\ (2 * level_num vals == inject_Z (count_leading_spaces field))%Q
    /\ name vals = Py.replace " " "_" (drop_leading_spaces field).
Proof.
  intros H.
  destruct (process_kraken_report_some _ _ H)
    as (f0 & f1 & nm & l & taxid & _ & _ & _ & _ & _ & Hnm & Hname & Hlevel).
  exists nm. repeat split; auto.
  rewrite Hlevel. unfold Qeq, Qmult, inject_Z. cbn [Qnum Qden]. lia.
Qed.

(** C6. The parser returns no record exactly for a line with fewer than
    four fields or with a second field that is not an integer; such a line
    is passed over and the pass goes on. A line that passes both tests and
    whose first field is not a float raises [ValueError], which ends the
    pass. *)
Theorem non_data_lines (line : string) :
  (process_kraken_report line = Ok None <->
   (length (fields line) < 4)%nat
   \/ exists f1 : string,
        nth_error (fields line) 1 = Some f1 /\ Py.int f1 = Raise ValueError)
  /\ (process_kraken_report line = Ok None ->
      forall (self : plugin) (st : tracker) (rest : list string),
        loop_body self st line = (EmptyString, Ok st)
        /\ for_lines self (line :: rest) st = for_lines self rest st)
  /\ (forall (f0 f1 : string) (reads : Z),
        (4 <= length (fields line))%nat ->
        nth_error (fields line) 0 = Some f0 ->
        nth_error (fields line) 1 = Some f1 ->
        Py.int f1 = Ok reads ->
        float_of_string f0 = None ->
        process_kraken_report line = Raise ValueError
        /\ forall (self : plugin) (st : tracker) (rest : list string),
             for_lines self (line :: rest) st = (EmptyString, Raise ValueError)).
Proof.
  split; [|split].
  - split.
    + intros H.
      destruct (Nat.lt_ge_cases (length (fields line)) 4) as [Hs|Hl]; [now left|].
      right. destruct (four_fields _ Hl) as (f0 & f1 & l & Hf & Hlen).
      rewrite (process_kraken_report_unfold _ _ _ _ Hf Hlen) in H.
      exists f1. split; [now rewrite Hf|].
      destruct (Py.int f1) as [reads|e] eqn:E1; [|now rewrite (int_raises _ _ E1)].
      exfalso.
      destruct (float f0); simpl in H; [|discriminate].
      destruct (taxid_level (fields line)) as [[t lt]|e]; simpl in H; [|discriminate].
      destruct (Py.getitem (fields line) (-1)); simpl in H; discriminate.
    + intros [Hs|(f1 & Hf1 & Hint)]; [now apply process_kraken_report_short|].
      destruct (Nat.lt_ge_cases (length (fields line)) 4) as [Hs|Hl];
        [now apply process_kraken_report_short|].
      destruct (four_fields _ Hl) as (g0 & g1 & l & Hf & Hlen).
      rewrite (process_kraken_report_unfold _ _ _ _ Hf Hlen).
      rewrite Hf in Hf1. simpl in Hf1. injection Hf1 as ->. now rewrite Hint.
  - intros H self st rest.
    pose proof (loop_body_skip self st line H) as Hb. split; [exact Hb|].
    rewrite (for_lines_cons_ok _ _ _ _ rest _ Hb). simpl.
    now destruct (for_lines self rest st).
  - intros f0 f1 reads Hl H0 H1 Hint Hx.
    destruct (four_fields _ Hl) as (g0 & g1 & l & Hf & Hlen).
    assert (Hp : process_kraken_report line = Raise ValueError).
    { rewrite (process_kraken_report_unfold _ _ _ _ Hf Hlen).
      rewrite Hf in H0, H1. simpl in H0, H1. injection H0 as ->. injection H1 as ->.
      rewrite Hint. unfold float. now rewrite Hx. }
    split; [exact Hp|]. intros self st rest.
    apply for_lines_cons_raise. now apply loop_body_raise.
Qed.

Lemma normalize_rank_table (word : string) : normalize_rank word = rank_table word.
Proof.
  unfold normalize_rank, rank_table, map_kuniq. simpl.
  repeat (match goal with
          | |- context [(word =? ?k)%string] => destruct (word =? k)%string
          end; [reflexivity|]).
  reflexivity.
Qed.

Lemma mem_false (code : string) (l : list string) : ~ In code l -> mem code l = false.
Proof.
  intros H. unfold mem. destruct (existsb (String.eqb code) l) eqn:E; [|reflexivity].
  apply existsb_exists in E. destruct E as (y & Hy & Heq).
  apply String.eqb_eq in Heq. now subst y.
Qed.

(** C7, as amended. On a line that has the taxonomy ID before the rank (the
    third-from-last field is an integer), the rank word is normalized: the
    level type is its image in the fixed table, and [-] for a word outside
    the table, which the tracker renders as [x]. On a line of the other
    layout the third-from-last field is the level type as it stands, so that
    a rank word there is not normalized and, like every code that is none of
    [R K D P C O F G S], is rendered as [x]. The level string of a record of
    rank [D] and of a record of rank [K] starts with [k__]; the level string
    of a record whose code is none of the nine starts with [x__]. *)
Theorem rank_normalization_and_display (line a word code nm : string)
    (vals : report_vals) :
  process_kraken_report line = Ok (Some vals) ->
  nth_error (fields line) (length (fields line) - 3) = Some a ->
  nth_error (fields line) (length (fields line) - 2) = Some word ->
  ~ In code main_lvls ->
  (forall taxid : Z, Py.int a = Ok taxid ->
     level_type vals = rank_table word
     /\ rank_normalized vals
     /\ (lookup word map_kuniq = None ->
         level_type vals = "-" /\ level_str_of vals = "x__" ++ name vals))
  /\ (Py.int a = Raise ValueError ->
      level_type vals = a
      /\ (~ In a main_lvls -> level_str_of vals = "x__" ++ name vals))
  /\ display_level "-" = "x"
  /\ make_level_str (display_level "D") nm = "k__" ++ nm
  /\ make_level_str (display_level "K") nm = "k__" ++ nm
  /\ make_level_str (display_level code) nm = "x__" ++ nm.
Proof.
  intros Hp Ha Hw Hcode.
  destruct (process_kraken_report_some _ _ Hp)
    as (f0 & f1 & nm0 & l & t & Hf & Hl & _ & _ & Ht & _).
  assert (Hlen : (3 <= length (fields line))%nat) by (rewrite Hf; simpl; lia).
  rewrite (taxid_level_unfold _ a word Hlen Ha Hw) in Ht.
  split; [|split].
  - intros taxid Hint. rewrite Hint in Ht. injection Ht as _ Hlt.
    split; [now rewrite <- Hlt, normalize_rank_table|]. split.
    + unfold rank_normalized. rewrite <- Hlt, normalize_rank_table.
      unfold rank_table.
      repeat (match goal with
              | |- context [(word =? ?k)%string] => destruct (word =? k)%string
              end; [reflexivity|]).
      reflexivity.
    + intros Hnone. unfold level_str_of. rewrite <- Hlt. unfold normalize_rank.
      now rewrite Hnone.
  - intros Hint. rewrite Hint in Ht.
    destruct (Py.int word) as [t'|e]; [|discriminate].
    injection Ht as _ Hlt. split; [now symmetry|].
    intros Hna. unfold level_str_of, display_level.
    now rewrite <- Hlt, (mem_false _ _ Hna).
  - repeat split. unfold display_level. now rewrite (mem_false _ _ Hcode).
Qed.

(** C8. The pass is a function of the configuration and of the lines of the
    report: the file it leaves does not depend on what the file held, and a
    second pass leaves the file of the first. *)
Theorem output_deterministic (self : plugin) (lines : list string) (old old' : string) :
  output_file self lines old = output_file self lines old'
  /\ output_file self lines (output_file self lines old) = output_file self lines old
  /\ output_file self lines old = fst (output self lines).
Proof. repeat split. Qed.

(** ** More of the parser *)

Lemma split_nonempty (sep : ascii) (s : string) : Py.split sep s <> [].
Proof.
  destruct s as [|c r]; simpl; [discriminate|].
  destruct (c =? sep)%char; [discriminate|].
  destruct (Py.split sep r); discriminate.
Qed.

Lemma split_app_sep (sep : ascii) (a b : string) :
  Py.split sep (a ++ String sep b) = (Py.split sep a ++ Py.split sep b)%list.
Proof.
  induction a as [|c a IH]; simpl.
  - now rewrite Ascii.eqb_refl.
  - destruct (c =? sep)%char; [now rewrite IH|].
    rewrite IH. pose proof (split_nonempty sep a) as Hne.
    destruct (Py.split sep a) as [|f fs]; [now elim Hne|reflexivity].
Qed.

Lemma last_app_nonempty {A : Type} (l1 l2 : list A) (d : A) :
  l2 <> [] -> last (l1 ++ l2) d = last l2 d.
Proof.
  intros Hne. induction l1 as [|a l1 IH]; [reflexivity|].
  simpl. rewrite IH. destruct (l1 ++ l2)%list eqn:E; [|reflexivity].
  apply app_eq_nil in E. now destruct E.
Qed.

(** The base name of the path that [input] builds is that of the report. *)
Lemma basename_join (prefix report : string) :
  Py.basename (prefix ++ "/" ++ report) = Py.basename report.
Proof.
  unfold Py.basename. change ("/" ++ report) with (String "/" report).
  rewrite split_app_sep. apply last_app_nonempty, split_nonempty.
Qed.

(** X1. With the keys [report] and [display_header = True], the pass runs and
    the file starts with the header line, which names the report by the part
    of its path after the last slash, whatever the prefix of the host. *)
Theorem header_names_report (prefix report : string)
    (parameters : list (string * string)) (lines : list string) :
  lookup "report" parameters = Some report ->
  lookup "display_header" parameters = Some "True" ->
  exists (w rest : string) (r : result unit),
    output_after_input (input prefix parameters) lines = Some (w, r)
    /\ w = "#Classification" ++ String Py.tab (Py.basename report)
             ++ String Py.newline rest.
Proof.
  intros Hr Hh. unfold output_after_input, input. simpl. rewrite Hr, Hh.
  pose proof (basename_join prefix report) as Hb.
  change ("/" ++ report) with (String "/" report) in Hb.
  unfold output. simpl. rewrite Hb.
  destruct (for_lines _ lines initial) as [w1 [st|e]]; simpl;
    eexists; exists w1; eexists; (split; [reflexivity|]);
    now rewrite !append_assoc_str, ?append_empty_r.
Qed.

Lemma float_raises (s : string) (e : exn) : float s = Raise e -> e = ValueError.
Proof. unfold float. destruct (float_of_string s); congruence. Qed.

(** X2. The parser raises no exception but [ValueError], and raises none on
    a line with fewer than four fields: the indices that it uses are always
    within the list. *)
Theorem parser_raises_only_ValueError (line : string) (e : exn) :
  process_kraken_report line = Raise e ->
  e = ValueError /\ (4 <= length (fields line))%nat.
Proof.
  intros H.
  destruct (Nat.lt_ge_cases (length (fields line)) 4) as [Hs|Hl].
  { rewrite (process_kraken_report_short _ Hs) in H. discriminate. }
  split; [|exact Hl].
  destruct (four_fields _ Hl) as (f0 & f1 & l & Hf & Hlen).
  rewrite (process_kraken_report_unfold _ _ _ _ Hf Hlen) in H.
  destruct (Py.int f1) as [reads|e1]; [|discriminate].
  destruct (float f0) as [x|e0] eqn:E0; simpl in H.
  2:{ injection H as <-. exact (float_raises _ _ E0). }
  assert (H3 : (1 <= 3 <= length (fields line))%nat) by lia.
  assert (H2 : (1 <= 2 <= length (fields line))%nat) by lia.
  destruct (getitem_neg_ok (fields line) 3 H3) as (a & Ha & _).
  destruct (getitem_neg_ok (fields line) 2 H2) as (b & Hb & _).
  assert (Hlen3 : (3 <= length (fields line))%nat) by lia.
  rewrite (taxid_level_unfold _ a b Hlen3 Ha Hb) in H.
  destruct (last_field line) as (nm & Hnm). rewrite Hnm in H.
  destruct (Py.int a); simpl in H; [discriminate|].
  destruct (Py.int b); simpl in H; [discriminate|].
  now injection H as <-.
Qed.

Lemma lstrip_blank (w : string) : blank w = true -> Py.lstrip w = EmptyString.
Proof.
  induction w as [|c w IH]; simpl; [reflexivity|].
  intros H. apply andb_true_iff in H. destruct H as [Hc Hw]. now rewrite Hc, IH.
Qed.

Lemma rstrip_blank (w : string) : blank w = true -> Py.rstrip w = EmptyString.
Proof.
  induction w as [|c w IH]; simpl; [reflexivity|].
  intros H. apply andb_true_iff in H. destruct H as [Hc Hw]. now rewrite IH, Hc.
Qed.

Lemma lstrip_blank_app (a s : string) :
  blank a = true -> Py.lstrip (a ++ s) = Py.lstrip s.
Proof.
  induction a as [|c a IH]; simpl; [reflexivity|].
  intros H. apply andb_true_iff in H. destruct H as [Hc Ha]. now rewrite Hc, IH.
Qed.

Lemma lstrip_app (s w : string) :
  Py.lstrip (s ++ w) = if blank s then Py.lstrip w else Py.lstrip s ++ w.
Proof.
  induction s as [|c s IH]; simpl; [reflexivity|].
  destruct (Py.isspace c); simpl; [exact IH|reflexivity].
Qed.

Lemma rstrip_app_blank (s w : string) :
  blank w = true -> Py.rstrip (s ++ w) = Py.rstrip s.
Proof.
  intros Hw. induction s as [|c s IH]; simpl.
  - now apply rstrip_blank.
  - now rewrite IH.
Qed.

Lemma strip_blank (a s b : string) :
  blank a = true -> blank b = true -> Py.strip (a ++ s ++ b) = Py.strip s.
Proof.
  intros Ha Hb. unfold Py.strip. rewrite (lstrip_blank_app _ _ Ha), lstrip_app.
  destruct (blank s) eqn:Hs.
  - now rewrite (lstrip_blank _ Hb), (lstrip_blank _ Hs).
  - now apply rstrip_app_blank.
Qed.

(** X3. White space around a line does not matter to the parser, nor to the
    tracker: a line with a line terminator, a carriage return or an indented
    first field is read as the line without them. *)
Theorem surrounding_whitespace_immaterial (a b line : string) :
  blank a = true -> blank b = true ->
  process_kraken_report (a ++ line ++ b) = process_kraken_report line
  /\ forall (self : plugin) (st : tracker),
       loop_body self st (a ++ line ++ b) = loop_body self st line.
Proof.
  intros Ha Hb.
  assert (Hp : process_kraken_report (a ++ line ++ b) = process_kraken_report line).
  { unfold process_kraken_report, fields. now rewrite (strip_blank _ _ _ Ha Hb). }
  split; [exact Hp|]. intros self st. unfold loop_body. now rewrite Hp.
Qed.

Lemma split_no_sep (sep : ascii) (s : string) :
  forall f : string, In f (Py.split sep s) -> has_char sep f = false.
Proof.
  induction s as [|c r IH]; intros f Hin; simpl in Hin.
  - destruct Hin as [<-|[]]. reflexivity.
  - destruct (c =? sep)%char eqn:Ec.
    + destruct Hin as [<-|Hin]; [reflexivity|now apply IH].
    + pose proof (split_nonempty sep r) as Hne.
      destruct (Py.split sep r) as [|g gs]; [now elim Hne|].
      destruct Hin as [<-|Hin].
      * simpl. rewrite Ec. apply IH. now left.
      * apply IH. now right.
Qed.

Lemma has_char_app (c : ascii) (a b : string) :
  has_char c (a ++ b) = has_char c a || has_char c b.
Proof.
  induction a as [|c' a IH]; simpl; [reflexivity|].
  now rewrite IH, orb_assoc.
Qed.

Lemma has_char_drop (c : ascii) (s : string) :
  has_char c s = false -> has_char c (drop_leading_spaces s) = false.
Proof.
  induction s as [|c' r IH]; [trivial|].
  destruct (Ascii.eqb_spec c' " ") as [->|Hc].
  - change (drop_leading_spaces (String " " r)) with (drop_leading_spaces r).
    simpl. intros H. apply orb_false_iff in H. now apply IH.
  - now destruct (leading_spaces_other c' r Hc) as [_ ->].
Qed.

Lemma has_char_replace_other (c a b : ascii) (s : string) :
  (b =? c)%char = false -> has_char c s = false ->
  has_char c (Py.replace a b s) = false.
Proof.
  intros Hb. induction s as [|c' r IH]; simpl; [trivial|].
  intros H. apply orb_false_iff in H. destruct H as [Hc Hr].
  rewrite (IH Hr). destruct (c' =? a)%char; now rewrite ?Hb, ?Hc.
Qed.

Lemma has_char_replaced (a b : ascii) (s : string) :
  (b =? a)%char = false -> has_char a (Py.replace a b s) = false.
Proof.
  intros Hb. induction s as [|c' r IH]; simpl; [reflexivity|].
  rewrite IH. destruct (c' =? a)%char eqn:E; now rewrite ?Hb, ?E.
Qed.

Ltac in_list := simpl; repeat (first [left; reflexivity | right]).

Lemma display_level_cases (level_type : string) :
  In (display_level level_type) ["x"; "k"; "R"; "P"; "C"; "O"; "F"; "G"; "S"].
Proof.
  unfold display_level. destruct (mem level_type main_lvls) eqn:E; simpl negb; cbv iota.
  - unfold mem in E. apply existsb_exists in E. destruct E as (y & Hy & Heq).
    apply String.eqb_eq in Heq. subst y. simpl in Hy.
    repeat (destruct Hy as [<-|Hy]; [in_list|]). now elim Hy.
  - in_list.
Qed.

(** X5. The level string of a record starts with one of the nine letters
    [x k r p c o f g s] and two underscores: no other prefix, and no capital
    letter, is ever pushed or written. *)
Theorem level_str_prefix (level_type name : string) :
  exists c : ascii,
    In c ["x"; "k"; "r"; "p"; "c"; "o"; "f"; "g"; "s"]%char
    /\ make_level_str (display_level level_type) name = String c ("__" ++ name).
Proof.
  pose proof (display_level_cases level_type) as H. simpl in H.
  repeat (destruct H as [<-|H]; [eexists; split; [|reflexivity]; in_list|]).
  now elim H.
Qed.

(** The rank letter and the underscores bring in neither a space nor a tab. *)
Lemma level_str_has_char (c : ascii) (level_type name : string) :
  c = " "%char \/ c = Py.tab ->
  has_char c (make_level_str (display_level level_type) name) = has_char c name.
Proof.
  intros Hc. pose proof (display_level_cases level_type) as H. simpl in H.
  repeat (destruct H as [<-|H]; [destruct Hc as [->| ->]; reflexivity|]).
  now elim H.
Qed.

Lemma name_chars (line : string) (vals : report_vals) :
  process_kraken_report line = Ok (Some vals) ->
  has_char " " (name vals) = false /\ has_char Py.tab (name vals) = false.
Proof.
  intros H.
  destruct (process_kraken_report_some _ _ H)
    as (f0 & f1 & nm & l & taxid & Hf & Hl & _ & _ & _ & Hnm & Hname & _).
  assert (Hin : In nm (fields line)).
  { assert (H1 : (1 <= 1 <= length (fields line))%nat) by (rewrite Hf; simpl; lia).
    change (-1) with (- Z.of_nat 1) in Hnm. rewrite (getitem_neg _ 1 H1) in Hnm.
    destruct (nth_error (fields line) (length (fields line) - 1)) eqn:E;
      [|discriminate].
    injection Hnm as <-. exact (nth_error_In _ _ E). }
  assert (Htab : has_char Py.tab nm = false) by exact (split_no_sep _ _ _ Hin).
  rewrite Hname. split.
  - now apply has_char_replaced.
  - apply has_char_replace_other; [reflexivity|]. now apply has_char_drop.
Qed.

(** X4. The name of a record holds neither a space nor a tab, and so does
    the level string pushed for it: a name never breaks the columns of the
    output. *)
Theorem name_has_no_separator (line : string) (vals : report_vals) :
  process_kraken_report line = Ok (Some vals) ->
  has_char " " (name vals) = false
  /\ has_char Py.tab (name vals) = false
  /\ has_char " " (level_str_of vals) = false
  /\ has_char Py.tab (level_str_of vals) = false.
Proof.
  intros H. destruct (name_chars _ _ H) as [Hs Ht].
  unfold level_str_of. rewrite !level_str_has_char by tauto. tauto.
Qed.

(** X6. In a line that has the taxonomy ID before the rank word, the rank is
    one of the eight codes of the table or [-]: such a line is never passed
    over as unclassified, and never counts as the root. *)
Theorem word_layout_never_unclassified (line a : string) (vals : report_vals)
    (taxid : Z) :
  process_kraken_report line = Ok (Some vals) ->
  nth_error (fields line) (length (fields line) - 3) = Some a ->
  Py.int a = Ok taxid ->
  In (level_type vals) ["S"; "G"; "F"; "O"; "C"; "P"; "D"; "K"; "-"]
  /\ level_type vals <> "U"
  /\ level_type vals <> "R".
Proof.
  intros Hp Ha Hint.
  destruct (process_kraken_report_some _ _ Hp)
    as (f0 & f1 & nm0 & l & t & Hf & Hl & _ & _ & Ht & _).
  assert (Hlen : (3 <= length (fields line))%nat) by (rewrite Hf; simpl; lia).
  assert (H2 : (1 <= 2 <= length (fields line))%nat) by lia.
  destruct (getitem_neg_ok (fields line) 2 H2) as (word & Hw & _).
  rewrite (taxid_level_unfold _ a word Hlen Ha Hw), Hint in Ht.
  injection Ht as _ Hlt. rewrite <- Hlt, normalize_rank_table.
  unfold rank_table.
  repeat (match goal with
          | |- context [(word =? ?k)%string] => destruct (word =? k)%string
          end; [simpl; repeat split; try tauto; discriminate|]).
  simpl. repeat split; try tauto; discriminate.
Qed.

(** ** More of the pass *)

Lemma loop_body_skipped (self : plugin) (st : tracker) (line : string) :
  skipped line -> loop_body self st line = (EmptyString, Ok st).
Proof.
  intros [H|(vals & H & HU)]; [now apply loop_body_skip|].
  apply (loop_body_unclassified _ _ _ vals H). now apply String.eqb_eq.
Qed.

Lemma output_eq (self : plugin) (lines : list string) :
  output self lines =
  (header_text self ++ fst (for_lines self lines initial),
   match snd (for_lines self lines initial) with
   | Ok _ => Ok tt
   | Raise e => Raise e
   end).
Proof.
  unfold output, header_text, bind, write, ret.
  destruct (for_lines self lines initial) as [w [st|e]];
    destruct (add_header self =? "True")%string; simpl;
    now rewrite ?append_empty_r.
Qed.

Lemma for_lines_skipped (self : plugin) (pre rest : list string) (line : string) :
  skipped line ->
  forall st : tracker,
    for_lines self (pre ++ line :: rest) st = for_lines self (pre ++ rest) st.
Proof.
  intros Hs. induction pre as [|l pre IH]; intros st.
  - simpl. rewrite (loop_body_skipped self st line Hs). unfold bind.
    now destruct (for_lines self rest st).
  - simpl. unfold bind. destruct (loop_body self st l) as [w [st1|e]]; [|reflexivity].
    now rewrite IH.
Qed.

(** X7. A line that is passed over, because it is not a data line or is
    unclassified, may be taken out of the report anywhere: the tracker and
    the file written are the same without it. *)
Theorem skipped_lines_removable (self : plugin) (pre rest : list string)
    (line : string) (st : tracker) :
  skipped line ->
  for_lines self (pre ++ line :: rest) st = for_lines self (pre ++ rest) st
  /\ output self (pre ++ line :: rest) = output self (pre ++ rest).
Proof.
  intros Hs. split; [now apply for_lines_skipped|].
  now rewrite !output_eq, (for_lines_skipped self pre rest line Hs).
Qed.

(** X8. The first record of a report that is not unclassified gets no line of
    its own, whatever its rank and depth: it only becomes the bottom of the
    stack, and a report with one record leaves a file with at most the
    header. *)
Theorem first_record_writes_nothing (self : plugin) (pre : list string)
    (line : string) (vals : report_vals) :
  Forall skipped pre ->
  process_kraken_report line = Ok (Some vals) ->
  level_type vals <> "U" ->
  for_lines self (pre ++ [line]) initial
  = (EmptyString, Ok (mk_tracker [level_str_of vals] (level_num vals)))
  /\ output self (pre ++ [line]) = (header_text self, Ok tt).
Proof.
  intros Hpre Hp HU. apply String.eqb_neq in HU.
  assert (Hf : for_lines self (pre ++ [line]) initial
               = (EmptyString, Ok (mk_tracker [level_str_of vals] (level_num vals)))).
  { induction Hpre as [|l pre Hl _ IH].
    - simpl. now rewrite (loop_body_first self initial _ _ Hp HU eq_refl).
    - simpl. rewrite (loop_body_skipped self initial l Hl). unfold bind.
      now rewrite IH. }
  split; [exact Hf|].
  rewrite output_eq, Hf. simpl. now rewrite append_empty_r.
Qed.

Lemma for_lines_app_raise (self : plugin) (pre rest : list string) (e : exn) :
  forall (st : tracker) (w : string),
    for_lines self pre st = (w, Raise e) ->
    for_lines self (pre ++ rest) st = (w, Raise e).
Proof.
  induction pre as [|line pre IH]; intros st w H; [discriminate|].
  simpl in *. unfold bind in *.
  destruct (loop_body self st line) as [w1 [st1|e1]]; [|exact H].
  destruct (for_lines self pre st1) as [w2 [st2|e2]] eqn:E2; [discriminate|].
  injection H as <- <-. now rewrite (IH _ _ E2).
Qed.

(** X9. The file only grows with the report: what the pass writes for the
    first lines of a report is the beginning of what it writes for the
    whole report, and once the pass has ended with an exception, further
    lines change nothing. *)
Theorem output_grows_with_report (self : plugin) (pre rest : list string) :
  (exists suffix : string,
      fst (output self (pre ++ rest)) = fst (output self pre) ++ suffix)
  /\ (forall e : exn, snd (output self pre) = Raise e ->
        output self (pre ++ rest) = output self pre).
Proof.
  rewrite !output_eq. simpl.
  destruct (for_lines self pre initial) as [w [st|e]] eqn:E.
  - rewrite (for_lines_app _ _ rest _ _ _ E). simpl. split; [|discriminate].
    exists (fst (for_lines self rest st)). now rewrite append_assoc_str.
  - rewrite (for_lines_app_raise _ _ rest _ _ _ E). simpl. split; [|reflexivity].
    exists EmptyString. now rewrite append_empty_r.
Qed.

(** ** Which reports the pass reads to the end *)

Lemma half_double (n : Z) : (2 * (n # 2) == inject_Z n)%Q.
Proof. unfold Qeq, Qmult, inject_Z. cbn [Qnum Qden]. lia. Qed.

Lemma Qnat_nonneg (k : nat) : (0 <= Qnat k)%Q.
Proof. unfold Qnat. change 0%Q with (inject_Z 0). rewrite <- Zle_Qle. lia. Qed.

Lemma Qnat_le (a b : nat) : (a <= b)%nat <-> (Qnat a <= Qnat b)%Q.
Proof. unfold Qnat. rewrite <- Zle_Qle. lia. Qed.

(** X10. A record whose indentation differs from that of the record before
    it by an odd number of spaces ends the pass: the depths are half a
    level apart, the loop never finds them one level apart, and the pop of
    the empty stack raises [IndexError]. *)
Theorem odd_indentation_aborts (self : plugin) (st : tracker) (line : string)
    (vals : report_vals) (m n : Z) :
  process_kraken_report line = Ok (Some vals) ->
  level_type vals <> "U" ->
  active st ->
  (prev_lvl_num st == m # 2)%Q ->
  (level_num vals == n # 2)%Q ->
  Z.odd (n - m) = true ->
  loop_body self st line = (EmptyString, Raise IndexError)
  /\ forall rest : list string,
       for_lines self (line :: rest) st = (EmptyString, Raise IndexError).
Proof.
  intros Hp HU HA Hm Hn Hodd. apply String.eqb_neq in HU.
  assert (Hb : loop_body self st line = (EmptyString, Raise IndexError)).
  { destruct (move_back_spec (level_num vals) (curr_path st) (prev_lvl_num st))
      as [(k & prev' & _ & Hl & _)|(_ & HM)].
    - exfalso.
      pose proof (half_double n) as H2n. pose proof (half_double m) as H2m.
      assert (E : (inject_Z n == inject_Z (m + - (2 * Z.of_nat k) + 2))%Q).
      { rewrite !inject_Z_plus, inject_Z_opp, inject_Z_mult.
        change (inject_Z 2) with 2%Q. fold (Qnat k).
        rewrite <- H2n, <- H2m, <- Hn, <- Hm, Hl. lra. }
      apply (proj1 (inject_Z_injective _ _)) in E.
      apply Z.odd_spec in Hodd. destruct Hodd as (q & Hq). lia.
    - exact (loop_body_active_raise self st line vals _ Hp HU HA HM). }
  split; [exact Hb|]. intros rest. exact (for_lines_cons_raise _ _ _ rest _ _ Hb).
Qed.

Lemma whole_inject (q : Q) (z : Z) : (q == inject_Z z)%Q -> whole q = true.
Proof.
  unfold Qeq, whole. simpl. intros H. rewrite Z.mul_1_r in H. rewrite H.
  apply Z.eqb_eq, Z.mod_mul. discriminate.
Qed.

Lemma whole_spec (q : Q) : whole q = true -> (q == inject_Z (Qnum q / QDen q))%Q.
Proof.
  unfold whole, Qeq. simpl. intros H. apply Z.eqb_eq in H.
  rewrite Z.mul_1_r.
  assert (Hd : QDen q <> 0) by discriminate.
  pose proof (Z_div_exact_full_2 (Qnum q) (QDen q) Hd H) as E.
  rewrite Z.mul_comm in E. exact E.
Qed.

(** The loop ends without an exception exactly for a record that fits. *)
Lemma fits_iff (d0 level prev : Q) (path : list string) :
  (Qnat (length path) == prev - d0 + 1)%Q ->
  fits d0 prev level = true <->
  exists (prev' : Q) (path' : list string),
    move_back level prev path = Ok (prev', path').
Proof.
  intros Hinv. unfold fits. split.
  - intros H. apply andb_true_iff in H. destruct H as [H Hw].
    apply andb_true_iff in H. destruct H as [Hlo Hhi].
    apply Qle_bool_iff in Hlo, Hhi. apply whole_spec in Hw.
    set (z := Qnum (prev + 1 - level) / QDen (prev + 1 - level)) in Hw.
    assert (Hz : 0 <= z).
    { rewrite Zle_Qle. rewrite <- Hw. change (inject_Z 0) with 0%Q. lra. }
    assert (Hk : (Qnat (Z.to_nat z) == inject_Z z)%Q)
      by (unfold Qnat; now rewrite Z2Nat.id).
    destruct (move_back_spec level path prev)
      as [(k & prev' & _ & _ & _ & _ & HM)|(Hno & _)]; [now eauto|].
    exfalso. apply (Hno (Z.to_nat z)).
    + apply Qnat_le. rewrite Hk, Hinv, <- Hw. lra.
    + rewrite Hk, <- Hw. lra.
  - intros (prev' & path' & HM).
    destruct (move_back_ok _ _ _ _ _ HM) as (k & Hk & Hl & _).
    apply Qnat_le in Hk. pose proof (Qnat_nonneg k) as H0.
    rewrite !andb_true_iff. repeat split.
    + apply Qle_bool_iff. lra.
    + apply Qle_bool_iff. lra.
    + apply (whole_inject _ (Z.of_nat k)). fold (Qnat k). lra.
Qed.

Lemma nested_iff (self : plugin) (d0 : Q) (lines : list string) :
  forall st : tracker,
    active st -> height_inv d0 st ->
    Forall (fun entry => entry <> EmptyString) (curr_path st) ->
    nested d0 (prev_lvl_num st) lines = true <->
    exists (w : string) (st' : tracker), for_lines self lines st = (w, Ok st').
Proof.
  induction lines as [|line rest IH]; intros st HA Hinv Hne.
  - simpl. split; [intros _; now exists EmptyString, st|reflexivity].
  - simpl nested.
    assert (Hskip : loop_body self st line = (EmptyString, Ok st) ->
              (nested d0 (prev_lvl_num st) rest = true <->
               exists (w : string) (st' : tracker),
                 for_lines self (line :: rest) st = (w, Ok st'))).
    { intros Hb. rewrite (for_lines_cons_ok _ _ _ _ rest _ Hb). simpl.
      rewrite (IH st HA Hinv Hne).
      destruct (for_lines self rest st) as [w r]. simpl.
      split; intros (w' & st' & E); injection E as _ ->; eauto. }
    destruct (process_kraken_report line) as [[vals|]|e] eqn:Hp.
    + destruct (level_type vals =? "U")%string eqn:HU.
      * exact (Hskip (loop_body_unclassified _ _ _ _ Hp HU)).
      * unfold height_inv in Hinv. fold (Qnat (length (curr_path st))) in Hinv.
        pose proof (fits_iff d0 (level_num vals) _ _ Hinv) as Hfit.
        destruct (move_back (level_num vals) (prev_lvl_num st) (curr_path st))
          as [[prev' path']|e] eqn:HM.
        -- assert (Hf : fits d0 (prev_lvl_num st) (level_num vals) = true)
             by (apply Hfit; eauto).
           rewrite Hf. simpl andb.
           assert (Hne' : Forall (fun entry => entry <> EmptyString) path').
           { destruct (move_back_ok _ _ _ _ _ HM) as (k & _ & _ & _ & _ & ->).
             now apply Forall_prefix. }
           pose proof (loop_body_active_ok self st line vals _ _ Hp HU HA HM Hne')
             as Hb.
           destruct (loop_body_active_inv _ _ _ _ _ d0 HA Hinv Hb) as [HA1 Hinv1].
           pose proof (loop_body_nonempty _ _ _ _ _ Hne Hb) as Hne1.
           rewrite (for_lines_cons_ok _ _ _ _ rest _ Hb).
           rewrite (IH _ HA1 Hinv1 Hne1).
           destruct (for_lines self rest _) as [w r]. simpl.
           split; intros (w' & st' & E); injection E as _ ->; eauto.
        -- assert (Hf : fits d0 (prev_lvl_num st) (level_num vals) = false).
           { destruct (fits d0 (prev_lvl_num st) (level_num vals)); [|reflexivity].
             destruct (proj1 Hfit eq_refl) as (p & q & E). discriminate. }
           rewrite Hf. simpl andb.
           rewrite (for_lines_cons_raise _ _ _ rest _ _
                      (loop_body_active_raise _ _ _ _ _ Hp HU HA HM)).
           split; [discriminate|intros (w & st' & E); discriminate].
    + exact (Hskip (loop_body_skip _ _ _ Hp)).
    + rewrite (for_lines_cons_raise _ _ _ rest _ _ (loop_body_raise self st _ _ Hp)).
      split; [discriminate|intros (w & st' & E); discriminate].
Qed.

Lemma well_nested_iff (self : plugin) (lines : list string) :
  well_nested lines = true <->
  exists (w : string) (st : tracker), for_lines self lines initial = (w, Ok st).
Proof.
  induction lines as [|line rest IH].
  - simpl. split; [intros _; now exists EmptyString, initial|reflexivity].
  - simpl well_nested.
    assert (Hskip : loop_body self initial line = (EmptyString, Ok initial) ->
              (well_nested rest = true <->
               exists (w : string) (st' : tracker),
                 for_lines self (line :: rest) initial = (w, Ok st'))).
    { intros Hb. rewrite (for_lines_cons_ok _ _ _ _ rest _ Hb). simpl. rewrite IH.
      destruct (for_lines self rest initial) as [w r]. simpl.
      split; intros (w' & st' & E); injection E as _ ->; eauto. }
    destruct (process_kraken_report line) as [[vals|]|e] eqn:Hp.
    + destruct (level_type vals =? "U")%string eqn:HU.
      * exact (Hskip (loop_body_unclassified _ _ _ _ Hp HU)).
      * pose proof (loop_body_first self initial _ _ Hp HU eq_refl) as Hb.
        remember (mk_tracker (curr_path initial ++ [level_str_of vals])
                    (level_num vals)) as st1 eqn:Est1.
        assert (Hprev : prev_lvl_num st1 = level_num vals) by now subst st1.
        assert (HA1 : active st1)
          by (unfold active; rewrite Hprev; exact (negative_not_level _ _ Hp)).
        assert (Hinv1 : height_inv (level_num vals) st1).
        { unfold height_inv. rewrite Hprev. subst st1. simpl.
          change (inject_Z 1) with 1%Q. lra. }
        assert (Hne1 : Forall (fun entry => entry <> EmptyString) (curr_path st1)).
        { subst st1. simpl.
          constructor; [apply make_level_str_nonempty|constructor]. }
        pose proof (nested_iff self (level_num vals) rest st1 HA1 Hinv1 Hne1) as Hn.
        rewrite Hprev in Hn. rewrite Hn.
        rewrite (for_lines_cons_ok _ _ _ _ rest _ Hb).
        destruct (for_lines self rest st1) as [w r]. simpl.
        split; intros (w' & st' & E); injection E as _ ->; eauto.
    + exact (Hskip (loop_body_skip _ _ _ Hp)).
    + rewrite (for_lines_cons_raise _ _ _ rest _ _
                 (loop_body_raise self initial _ _ Hp)).
      split; [discriminate|intros (w & st' & E); discriminate].
Qed.

(** X11. The pass reads a report to the end exactly when every line parses
    and every record after the first fits below the record before it: not
    above the first record, at most one level deeper than the record before
    it, and a whole number of levels away from it. On every other report the
    pass ends with an exception. *)
Theorem pass_completes_iff_well_nested (self : plugin) (lines : list string) :
  (well_nested lines = true <->
   exists w : string, output self lines = (w, Ok tt))
  /\ (well_nested lines = false <->
      exists (w : string) (e : exn), output self lines = (w, Raise e)).
Proof.
  pose proof (well_nested_iff self lines) as H.
  rewrite output_eq.
  destruct (for_lines self lines initial) as [w [st|e]] eqn:E; simpl.
  - assert (Hw : well_nested lines = true) by (apply H; eauto).
    rewrite Hw. split; split; try discriminate; eauto.
    intros (w' & e & E'). discriminate.
  - assert (Hw : well_nested lines = false).
    { destruct (well_nested lines); [|reflexivity].
      destruct (proj1 H eq_refl) as (w' & st & E'). discriminate. }
    rewrite Hw. split; split; try discriminate; eauto.
    intros (w' & E'). discriminate.
Qed.

(** ** The columns of the file *)

Lemma count_char_app (c : ascii) (a b : string) :
  count_char c (a ++ b) = (count_char c a + count_char c b)%nat.
Proof. induction a as [|c' a IH]; simpl; [reflexivity|]. rewrite IH. lia. Qed.

Lemma has_char_count (c : ascii) (s : string) :
  has_char c s = false -> count_char c s = 0%nat.
Proof.
  induction s as [|c' r IH]; simpl; [reflexivity|].
  intros H. apply orb_false_iff in H. destruct H as [-> Hr]. now rewrite IH.
Qed.

Lemma string_of_uint_no_tab (d : Decimal.uint) :
  count_char Py.tab (NilEmpty.string_of_uint d) = 0%nat.
Proof. induction d; simpl; auto. Qed.

Lemma str_of_int_no_tab (n : Z) : count_char Py.tab (Py.str_of_int n) = 0%nat.
Proof.
  unfold Py.str_of_int, NilZero.string_of_int, NilZero.string_of_uint.
  destruct (Z.to_int n) as [d|d]; destruct d; simpl;
    try reflexivity; apply string_of_uint_no_tab.
Qed.

Lemma lineage_no_tab (self : plugin) (path : list string) :
  Forall (fun entry => has_char Py.tab entry = false) path ->
  count_char Py.tab (lineage self path) = 0%nat.
Proof.
  unfold lineage. induction 1 as [|entry path He _ IH]; [reflexivity|].
  simpl. destruct (is_segment self entry); [|exact IH].
  simpl. rewrite !count_char_app, IH, (has_char_count _ _ He). reflexivity.
Qed.

Lemma level_str_no_tab (line : string) (vals : report_vals) :
  process_kraken_report line = Ok (Some vals) ->
  has_char Py.tab (level_str_of vals) = false.
Proof.
  intros H. unfold level_str_of. rewrite level_str_has_char by tauto.
  exact (proj2 (name_chars _ _ H)).
Qed.

(** No entry of the stack ever holds a tab. *)
Lemma loop_body_no_tab (self : plugin) (st st' : tracker) (line w : string) :
  Forall (fun entry => has_char Py.tab entry = false) (curr_path st) ->
  loop_body self st line = (w, Ok st') ->
  Forall (fun entry => has_char Py.tab entry = false) (curr_path st').
Proof.
  intros Hne Hb.
  destruct (process_kraken_report line) as [[vals|]|e] eqn:Hp.
  - destruct (level_type vals =? "U")%string eqn:HU.
    + rewrite (loop_body_unclassified _ _ _ _ Hp HU) in Hb. now injection Hb as _ <-.
    + destruct (Qeq_bool (prev_lvl_num st) (-1 # 1)) eqn:HA.
      * rewrite (loop_body_first _ _ _ _ Hp HU HA) in Hb. injection Hb as _ <-.
        simpl. apply Forall_app. split; [exact Hne|].
        constructor; [exact (level_str_no_tab _ _ Hp)|constructor].
      * destruct (move_back (level_num vals) (prev_lvl_num st) (curr_path st))
          as [[prev' path']|e] eqn:HM.
        -- rewrite (loop_body_active_state _ _ _ _ _ _ _ _ Hp HU HA HM Hb). simpl.
           apply Forall_app. split.
           ++ destruct (move_back_ok _ _ _ _ _ HM) as (k & _ & _ & _ & _ & ->).
              now apply Forall_prefix.
           ++ constructor; [exact (level_str_no_tab _ _ Hp)|constructor].
        -- rewrite (loop_body_active_raise _ _ _ _ _ Hp HU HA HM) in Hb. discriminate.
  - rewrite (loop_body_skip _ _ _ Hp) in Hb. now injection Hb as _ <-.
  - rewrite (loop_body_raise _ _ _ _ Hp) in Hb. discriminate.
Qed.

Lemma for_lines_no_tab (self : plugin) (lines : list string) :
  forall (st st' : tracker) (w : string),
    Forall (fun entry => has_char Py.tab entry = false) (curr_path st) ->
    for_lines self lines st = (w, Ok st') ->
    Forall (fun entry => has_char Py.tab entry = false) (curr_path st').
Proof.
  induction lines as [|line lines IH]; intros st st' w Hne H.
  - simpl in H. now injection H as _ <-.
  - simpl in H. unfold bind in H.
    destruct (loop_body self st line) as [w1 [st1|e]] eqn:E1; [|discriminate].
    destruct (for_lines self lines st1) as [w2 [st2|e]] eqn:E2; [|discriminate].
    injection H as _ <-.
    exact (IH _ _ _ (loop_body_no_tab _ _ _ _ _ Hne E1) E2).
Qed.

(** X12. With read counts, what the pass writes for one line of the report,
    at any point of the report, is nothing or one line of two columns: it
    holds exactly one tab and ends with the line terminator. *)
Theorem written_line_has_two_columns (self : plugin) (pre : list string)
    (line w0 w : string) (st : tracker) (r : result tracker) :
  use_reads self = "True" ->
  for_lines self pre initial = (w0, Ok st) ->
  loop_body self st line = (w, r) ->
  w = EmptyString
  \/ (count_char Py.tab w = 1%nat
      /\ exists text : string, w = text ++ String Py.newline EmptyString).
Proof.
  intros Hreads Hpre Hb.
  pose proof (for_lines_nonempty self pre initial st w0 (Forall_nil _) Hpre) as Hne.
  pose proof (for_lines_no_tab self pre initial st w0 (Forall_nil _) Hpre) as Hnt.
  destruct (process_kraken_report line) as [[vals|]|e] eqn:Hp.
  - destruct (level_type vals =? "U")%string eqn:HU.
    + rewrite (loop_body_unclassified _ _ _ _ Hp HU) in Hb. injection Hb as <- _.
      now left.
    + destruct (Qeq_bool (prev_lvl_num st) (-1 # 1)) eqn:HA.
      * rewrite (loop_body_first _ _ _ _ Hp HU HA) in Hb. injection Hb as <- _.
        now left.
      * destruct (move_back (level_num vals) (prev_lvl_num st) (curr_path st))
          as [[prev' path']|e] eqn:HM.
        -- destruct (move_back_ok _ _ _ _ _ HM) as (k & _ & _ & _ & _ & Hpath).
           assert (Hne' : Forall (fun entry => entry <> EmptyString) path')
             by (subst path'; now apply Forall_prefix).
           assert (Hnt' : Forall (fun entry => has_char Py.tab entry = false) path')
             by (subst path'; now apply Forall_prefix).
           rewrite (loop_body_active_ok self st line vals _ _ Hp HU HA HM Hne') in Hb.
           injection Hb as <- _.
           destruct (emitted self (display_level (level_type vals))); [right|now left].
           unfold mpa_line, metric. rewrite Hreads. simpl (_ =? _)%string. cbv iota.
           split.
           ++ rewrite !count_char_app. simpl.
              rewrite (lineage_no_tab self _ Hnt'),
                (has_char_count _ _ (level_str_no_tab _ _ Hp)), str_of_int_no_tab.
              reflexivity.
           ++ exists (lineage self path' ++ level_str_of vals
                        ++ String Py.tab (Py.str_of_int (all_reads vals))).
              now rewrite !append_assoc_str.
        -- rewrite (loop_body_active_raise _ _ _ _ _ Hp HU HA HM) in Hb.
           injection Hb as <- _. now left.
  - rewrite (loop_body_skip _ _ _ Hp) in Hb. injection Hb as <- _. now left.
  - rewrite (loop_body_raise _ _ _ _ Hp) in Hb. injection Hb as <- _. now left.
Qed.

(** ** Where the entries of the stack come from *)

Lemma entry_at_incl (d0 : Q) (seen seen' : list string) (j : nat) (entry : string) :
  incl seen seen' -> entry_at d0 seen j entry -> entry_at d0 seen' j entry.
Proof.
  intros Hi (line & vals & Hin & H). exists line, vals. split; [now apply Hi|exact H].
Qed.

Lemma loop_body_path_inv (self : plugin) (st st' : tracker) (line w : string)
    (d0 : Q) (seen : list string) :
  active st -> height_inv d0 st -> path_inv d0 seen st ->
  loop_body self st line = (w, Ok st') ->
  path_inv d0 (seen ++ [line]) st'.
Proof.
  intros HA Hinv Hpath Hb.
  assert (Hsame : st' = st -> path_inv d0 (seen ++ [line]) st').
  { intros -> j entry Hj. apply (entry_at_incl d0 seen); [apply incl_appl, incl_refl|].
    now apply Hpath. }
  destruct (process_kraken_report line) as [[vals|]|e] eqn:Hp.
  - destruct (level_type vals =? "U")%string eqn:HU.
    + rewrite (loop_body_unclassified _ _ _ _ Hp HU) in Hb. injection Hb as _ <-.
      now apply Hsame.
    + destruct (move_back (level_num vals) (prev_lvl_num st) (curr_path st))
        as [[prev' path']|e] eqn:HM.
      * rewrite (loop_body_active_state _ _ _ _ _ _ _ _ Hp HU HA HM Hb).
        destruct (move_back_ok _ _ _ _ _ HM) as (k & Hk & Hl & _ & _ & ->).
        intros j entry Hj. simpl in Hj.
        assert (Hlen : length (firstn (length (curr_path st) - k) (curr_path st))
                       = (length (curr_path st) - k)%nat)
          by (rewrite length_firstn; lia).
        destruct (Nat.lt_ge_cases j (length (curr_path st) - k)) as [Hlt|Hge].
        -- rewrite nth_error_app1 in Hj by (rewrite Hlen; exact Hlt).
           rewrite nth_error_firstn in Hj.
           apply Nat.ltb_lt in Hlt. rewrite Hlt in Hj.
           apply (entry_at_incl d0 seen); [apply incl_appl, incl_refl|].
           now apply Hpath.
        -- rewrite nth_error_app2 in Hj by (rewrite Hlen; exact Hge).
           rewrite Hlen in Hj.
           destruct (j - (length (curr_path st) - k))%nat as [|i] eqn:Ej;
             [|destruct i; discriminate].
           simpl in Hj. injection Hj as <-.
           exists line, vals. split; [apply in_or_app; right; now left|].
           split; [exact Hp|]. split; [now apply String.eqb_neq|].
           split; [reflexivity|].
           assert (j = (length (curr_path st) - k)%nat) by lia. subst j.
           unfold height_inv in Hinv. fold (Qnat (length (curr_path st))) in Hinv.
           fold (Qnat (length (curr_path st) - k)).
           rewrite (Qnat_sub _ _ Hk). lra.
      * rewrite (loop_body_active_raise _ _ _ _ _ Hp HU HA HM) in Hb. discriminate.
  - rewrite (loop_body_skip _ _ _ Hp) in Hb. injection Hb as _ <-. now apply Hsame.
  - rewrite (loop_body_raise _ _ _ _ Hp) in Hb. discriminate.
Qed.

Lemma for_lines_path_inv (self : plugin) (d0 : Q) (lines : list string) :
  forall (seen : list string) (st st' : tracker) (w : string),
    active st -> height_inv d0 st -> path_inv d0 seen st ->
    for_lines self lines st = (w, Ok st') ->
    path_inv d0 (seen ++ lines) st'.
Proof.
  induction lines as [|line lines IH]; intros seen st st' w HA Hinv Hpath H.
  - simpl in H. injection H as _ <-. now rewrite app_nil_r.
  - simpl in H. unfold bind in H.
    destruct (loop_body self st line) as [w1 [st1|e]] eqn:E1; [|discriminate].
    destruct (for_lines self lines st1) as [w2 [st2|e]] eqn:E2; [|discriminate].
    injection H as _ <-.
    destruct (loop_body_active_inv _ _ _ _ _ _ HA Hinv E1) as [HA1 Hinv1].
    pose proof (loop_body_path_inv _ _ _ _ _ _ _ HA Hinv Hpath E1) as Hpath1.
    pose proof (IH _ _ _ _ HA1 Hinv1 Hpath1 E2) as Hfin.
    now rewrite <- app_assoc in Hfin.
Qed.

(** X13. After the pass has read a report, or the first lines of one,
    without an exception, the entry at index [j] of the stack is the level
    string of a record of these lines that lies [j] levels below the first
    record: from the bottom up the stack holds one record per level, with no
    level left out. *)
Theorem stack_entries_at_consecutive_depths (self : plugin) (lines : list string)
    (w : string) (st : tracker) (d0 : Q) :
  for_lines self lines initial = (w, Ok st) ->
  first_depth lines = Some d0 ->
  forall (j : nat) (entry : string),
    nth_error (curr_path st) j = Some entry ->
    exists (line : string) (vals : report_vals),
      In line lines
      /\ process_kraken_report line = Ok (Some vals)
      /\ level_type vals <> "U"
      /\ entry = level_str_of vals
      /\ (level_num vals == d0 + inject_Z (Z.of_nat j))%Q.
Proof.
  revert w st. induction lines as [|line rest IH]; intros w st H Hd0; [discriminate|].
  simpl in H. unfold bind in H.
  destruct (loop_body self initial line) as [w1 [st1|e]] eqn:E1; [|discriminate].
  destruct (for_lines self rest st1) as [w2 [st2|e]] eqn:E2; [|discriminate].
  injection H as _ <-. simpl first_depth in Hd0.
  assert (Hskip : st1 = initial -> first_depth rest = Some d0 ->
            path_inv d0 (line :: rest) st2).
  { intros -> Hd j entry Hj.
    apply (entry_at_incl d0 rest); [apply incl_tl, incl_refl|].
    exact (IH _ _ E2 Hd j entry Hj). }
  destruct (process_kraken_report line) as [[vals|]|e] eqn:Hp.
  - destruct (level_type vals =? "U")%string eqn:HU.
    + rewrite (loop_body_unclassified _ _ _ _ Hp HU) in E1. injection E1 as _ <-.
      now apply Hskip.
    + injection Hd0 as <-.
      rewrite (loop_body_first self initial _ _ Hp HU eq_refl) in E1.
      injection E1 as _ <-.
      apply (for_lines_path_inv self (level_num vals) rest [line] _ _ _) with (4 := E2).
      * exact (negative_not_level _ _ Hp).
      * unfold height_inv. simpl. change (inject_Z 1) with 1%Q. lra.
      * intros j entry Hj. simpl in Hj.
        destruct j as [|j]; [|destruct j; discriminate].
        injection Hj as <-. exists line, vals.
        split; [now left|]. split; [exact Hp|].
        split; [now apply String.eqb_neq|]. split; [reflexivity|].
        change (inject_Z (Z.of_nat 0)) with 0%Q. lra.
  - rewrite (loop_body_skip _ _ _ Hp) in E1. injection E1 as _ <-. now apply Hskip.
  - rewrite (loop_body_raise _ _ _ _ Hp) in E1. discriminate.
Qed.

(** ** The options and the tracker *)

Lemma loop_body_result_any_plugin (self self' : plugin) (st : tracker)
    (line : string) :
  Forall (fun entry => entry <> EmptyString) (curr_path st) ->
  snd (loop_body self st line) = snd (loop_body self' st line).
Proof.
  intros Hne.
  destruct (process_kraken_report line) as [[vals|]|e] eqn:Hp.
  - destruct (level_type vals =? "U")%string eqn:HU.
    + now rewrite !(loop_body_unclassified _ _ _ _ Hp HU).
    + destruct (Qeq_bool (prev_lvl_num st) (-1 # 1)) eqn:HA.
      * now rewrite !(loop_body_first _ _ _ _ Hp HU HA).
      * destruct (move_back (level_num vals) (prev_lvl_num st) (curr_path st))
          as [[prev' path']|e] eqn:HM.
        -- assert (Hne' : Forall (fun entry => entry <> EmptyString) path').
           { destruct (move_back_ok _ _ _ _ _ HM) as (k & _ & _ & _ & _ & ->).
             now apply Forall_prefix. }
           now rewrite !(loop_body_active_ok _ st line vals _ _ Hp HU HA HM Hne').
        -- now rewrite !(loop_body_active_raise _ _ _ _ _ Hp HU HA HM).
  - now rewrite !(loop_body_skip _ _ _ Hp).
  - now rewrite !(loop_body_raise _ _ _ _ Hp).
Qed.

Lemma for_lines_result_any_plugin (self self' : plugin) (lines : list string) :
  forall st : tracker,
    Forall (fun entry => entry <> EmptyString) (curr_path st) ->
    snd (for_lines self lines st) = snd (for_lines self' lines st).
Proof.
  induction lines as [|line lines IH]; intros st Hne; [reflexivity|].
  simpl. unfold bind.
  pose proof (loop_body_result_any_plugin self self' st line Hne) as Hb.
  destruct (loop_body self st line) as [w1 [st1|e1]] eqn:E1;
    destruct (loop_body self' st line) as [w2 [st2|e2]] eqn:E2;
    simpl in Hb; try discriminate.
  - injection Hb as <-.
    pose proof (IH st1 (loop_body_nonempty _ _ _ _ _ Hne E1)) as Hr.
    destruct (for_lines self lines st1), (for_lines self' lines st1). exact Hr.
  - exact Hb.
Qed.

(** X14. The three options change the text that is written and nothing
    else: with any two settings the tracker ends in the same state, or the
    pass ends with the same exception. *)
Theorem options_do_not_change_tracker (self self' : plugin) (lines : list string) :
  snd (for_lines self lines initial) = snd (for_lines self' lines initial)
  /\ snd (output self lines) = snd (output self' lines).
Proof.
  pose proof (for_lines_result_any_plugin self self' lines initial (Forall_nil _)) as H.
  split; [exact H|]. rewrite !output_eq. simpl. now rewrite H.
Qed.

End Kraken2MPA.

(** ** The interpreter's operations on sample values *)

Example int_examples :
  Py.int "100" = Ok 100 /\ Py.int " -7 " = Ok (-7) /\ Py.int "1_000" = Ok 1000
  /\ Py.int "S" = Raise ValueError /\ Py.int "" = Raise ValueError
  /\ Py.int "1__0" = Raise ValueError /\ Py.int "5_" = Raise ValueError
  /\ Py.int "50.00" = Raise ValueError /\ Py.int "+ 5" = Raise ValueError
  /\ Py.int (String "028" "100") = Raise ValueError
  /\ Py.int (String "160" "100") = Ok 100.
Proof. repeat split; reflexivity. Qed.

Example str_of_int_examples :
  Py.str_of_int 100 = "100" /\ Py.str_of_int 0 = "0" /\ Py.str_of_int (-12) = "-12".
Proof. repeat split; reflexivity. Qed.

Example split_examples :
  Py.split Py.tab "" = [""] /\
  Py.split "," "a,b,,c" = ["a"; "b"; ""; "c"] /\
  Py.split "," "a," = ["a"; ""] /\
  Py.strip "  a b   " = "a b" /\
  Py.basename "/data/run1/sample.kreport" = "sample.kreport" /\
  Py.basename "sample.kreport" = "sample.kreport".
Proof. repeat split; reflexivity. Qed.

(** ** The claims on sample reports, with the stand-in floats *)

Local Abbreviation parse := (process_kraken_report string DecimalText.float_of_string).
Local Abbreviation body :=
  (loop_body string DecimalText.float_of_string DecimalText.str_of_float).
Local Abbreviation pass :=
  (for_lines string DecimalText.float_of_string DecimalText.str_of_float).
Local Abbreviation vals_of := (mk_report_vals string).

(** The example of the specification: below the stack of Bacteria and
    Proteobacteria, the line of Escherichia coli. *)
Lemma active_record_emission_witness :
  body default_plugin bacteria_path ecoli_line
  = ("d__Bacteria|p__Proteobacteria|s__Escherichia_coli"
       ++ String Py.tab "100" ++ String Py.newline EmptyString,
     Ok (mk_tracker ["d__Bacteria"; "p__Proteobacteria"; "s__Escherichia_coli"]
           (4 # 2))).
Proof.
  refine (proj2 (proj2 (proj2
    (active_record_emission string DecimalText.float_of_string
       DecimalText.str_of_float default_plugin bacteria_path ecoli_line
       (vals_of "Escherichia_coli" (4 # 2) "S" 100 "50.00")
       (1 # 1) ["d__Bacteria"; "p__Proteobacteria"] _ _ _ _ _)))).
  - reflexivity.
  - discriminate.
  - reflexivity.
  - repeat constructor; discriminate.
  - reflexivity.
Defined.

(** A jump from depth 1 to depth 4 exhausts the stack: the pop of the empty
    stack raises [IndexError] and nothing is written. *)
Lemma backtracking_pops_or_aborts_witness :
  body default_plugin bacteria_path deep_line = (EmptyString, Raise IndexError).
Proof.
  destruct (backtracking_pops_or_aborts string DecimalText.float_of_string
              DecimalText.str_of_float default_plugin bacteria_path deep_line
              (vals_of "Deep" (8 # 2) "S" 5 "5.00"))
    as [(k & prev' & _ & _ & _ & _ & Hm)|(_ & _ & Hb & _)].
  - reflexivity.
  - discriminate.
  - reflexivity.
  - vm_compute in Hm. discriminate Hm.
  - exact Hb.
Defined.

Lemma upward_jump_aborts_witness :
  pass default_plugin [deep_line; ecoli_line] bacteria_path
  = (EmptyString, Raise IndexError).
Proof.
  refine (proj2 (proj2 (proj2
    (upward_jump_aborts string DecimalText.float_of_string
       DecimalText.str_of_float default_plugin bacteria_path deep_line
       (vals_of "Deep" (8 # 2) "S" 5 "5.00") _ _ _ _))) [ecoli_line]).
  - reflexivity.
  - discriminate.
  - reflexivity.
  - reflexivity.
Defined.

(** A second domain at depth 0 empties the stack of root and Bacteria and
    becomes its only entry. *)
Lemma nested_record_backtracks_safely_witness :
  body default_plugin root_bacteria archaea_line
  = ("k__Archaea" ++ String Py.tab "5" ++ String Py.newline EmptyString,
     Ok (mk_tracker ["k__Archaea"] (0 # 2))).
Proof.
  refine (proj2
    (nested_record_backtracks_safely string DecimalText.float_of_string
       DecimalText.str_of_float default_plugin root_bacteria archaea_line
       (vals_of "Archaea" (0 # 2) "D" 5 "5.00") 0 _ _ _ _ _ _ _) eq_refl).
  - reflexivity.
  - discriminate.
  - reflexivity.
  - reflexivity.
  - reflexivity.
  - lia.
  - discriminate.
Defined.

(** Root, Bacteria, Escherichia coli: the height 3 is the depth 2 plus one. *)
Lemma stack_height_tracks_depth_witness :
  exists d0 : Q,
    first_depth string DecimalText.float_of_string
      [root_line; bacteria_line; ecoli_line] = Some d0
    /\ (Qnat (length ["r__root"; "k__Bacteria"; "s__Escherichia_coli"])
        == (4 # 2) - d0 + 1)%Q.
Proof.
  destruct (stack_height_tracks_depth string DecimalText.float_of_string
              DecimalText.str_of_float default_plugin [root_line; bacteria_line]
              ecoli_line
              ("k__Bacteria" ++ String Py.tab "90" ++ String Py.newline
                 ("k__Bacteria|s__Escherichia_coli" ++ String Py.tab "100"
                    ++ String Py.newline EmptyString))
              (vals_of "Escherichia_coli" (4 # 2) "S" 100 "50.00")
              (mk_tracker ["r__root"; "k__Bacteria"; "s__Escherichia_coli"] (4 # 2)))
    as (d0 & Hd0 & Hh & _).
  - reflexivity.
  - reflexivity.
  - discriminate.
  - exists d0. split; [exact Hd0|exact Hh].
Defined.

(** C4 as it is stated fails on a report whose first record is indented: the
    pass ends without an exception, the record is at depth 1 and the stack
    holds one entry, not two. *)
Lemma stack_height_counterexample :
  pass default_plugin [indented_root_line] initial
  = (EmptyString, Ok (mk_tracker ["r__root"] (2 # 2)))
  /\ parse indented_root_line = Ok (Some (vals_of "root" (2 # 2) "R" 5 "100.00"))
  /\ ~ (Qnat (length ["r__root"]) == (2 # 2) + 1)%Q.
Proof.
  repeat split. intros H. vm_compute in H. discriminate H.
Defined.

(** Both layouts: the taxonomy ID before the rank word, and the rank code
    before the taxonomy ID. *)
Lemma taxid_field_tried_first_witness :
  taxid_level (fields homo_kuniq_line) = Ok (9606, normalize_rank "species")
  /\ taxid_level (fields ecoli_line) = Ok (1234, "S").
Proof.
  split.
  - refine (proj1 (proj1
      (taxid_field_tried_first string DecimalText.float_of_string
         homo_kuniq_line "9606" "species" "0.05" "12" 12 "0.05" _ _ _ _ _ _ _)
      9606 _)); try reflexivity.
    simpl. lia.
  - refine (proj1 (proj1 (proj2
      (taxid_field_tried_first string DecimalText.float_of_string
         ecoli_line "S" "1234" "50.00" "100" 100 "50.00" _ _ _ _ _ _ _))
      1234 _ _)); try reflexivity.
    simpl. lia.
Defined.

(** C3 as it is stated fails on a line that has the taxonomy ID before the
    rank word: the second-from-last field is not an integer, and the rank
    [S] comes from that very field, not from a field to its left. *)
Lemma taxid_order_counterexample :
  taxid_level (fields homo_kuniq_line) = Ok (9606, "S")
  /\ ~ order_as_worded taxid_level (fields homo_kuniq_line).
Proof.
  split; [reflexivity|].
  intros H. specialize (H 9606 "S" eq_refl).
  destruct H as [[H _]|[_ (i & word & Hi & Hnth & Hr)]].
  - vm_compute in H. discriminate H.
  - change (fields homo_kuniq_line)
      with ["0.05"; "12"; "3"; "9606"; "species"; "      Homo sapiens"] in Hi, Hnth.
    simpl in Hi.
    destruct i as [|[|[|[|i]]]]; [| | | |lia];
      simpl in Hnth; injection Hnth as <-;
      destruct Hr as [Hr|Hr]; vm_compute in Hr; discriminate Hr.
Defined.

(** Three leading spaces: depth 3/2. *)
Lemma depth_is_half_leading_spaces_witness :
  exists field : string,
    Py.getitem (fields odd_indent_line) (-1) = Ok field
    /\ level_num string (vals_of "Homo_sapiens" (3 # 2) "S" 5 "1.0")
       = count_leading_spaces field # 2
    /\ (2 * level_num string (vals_of "Homo_sapiens" (3 # 2) "S" 5 "1.0")
        == inject_Z (count_leading_spaces field))%Q
    /\ name string (vals_of "Homo_sapiens" (3 # 2) "S" 5 "1.0")
       = Py.replace " " "_" (drop_leading_spaces field).
Proof.
  exact (depth_is_half_leading_spaces string DecimalText.float_of_string
           odd_indent_line (vals_of "Homo_sapiens" (3 # 2) "S" 5 "1.0") eq_refl).
Defined.

(** A title line is passed over; a line with a percent that is not a number
    raises [ValueError]. *)
Lemma non_data_lines_witness :
  parse title_line = Ok None /\ parse bad_percent_line = Raise ValueError.
Proof.
  split.
  - apply (proj2 (proj1 (non_data_lines string DecimalText.float_of_string
                           DecimalText.str_of_float title_line))).
    left. simpl. lia.
  - apply (proj2 (proj2 (non_data_lines string DecimalText.float_of_string
                           DecimalText.str_of_float bad_percent_line))
             "n/a" "5" 5); try reflexivity.
    simpl. lia.
Defined.

Lemma rank_normalization_and_display_witness :
  (level_type string (vals_of "Homo_sapiens" (6 # 2) "S" 12 "0.05") = rank_table "species"
   /\ make_level_str (display_level "S1") "Homo" = "x__Homo")
  /\ level_str_of string (vals_of "Homo_sapiens" (0 # 2) "species" 5 "1.0")
     = "x__" ++ "Homo_sapiens".
Proof.
  split.
  - destruct (rank_normalization_and_display string DecimalText.float_of_string
                homo_kuniq_line "9606" "species" "S1" "Homo"
                (vals_of "Homo_sapiens" (6 # 2) "S" 12 "0.05"))
      as (H1 & _ & _ & _ & _ & H6).
    + reflexivity.
    + reflexivity.
    + reflexivity.
    + simpl. intuition discriminate.
    + split; [exact (proj1 (H1 9606 eq_refl))|exact H6].
  - destruct (rank_normalization_and_display string DecimalText.float_of_string
                species_code_line "species" "9606" "S1" "Homo"
                (vals_of "Homo_sapiens" (0 # 2) "species" 5 "1.0"))
      as (_ & H2 & _).
    + reflexivity.
    + reflexivity.
    + reflexivity.
    + simpl. intuition discriminate.
    + apply (proj2 (H2 eq_refl)). simpl. intuition discriminate.
Defined.

(** C7 as it is stated fails on a line that has a rank word in the column of
    the rank codes: the word [species], which the table maps to [S], stays
    the level type, and the record is rendered as [x__Homo_sapiens]. *)
Lemma rank_word_counterexample :
  parse species_code_line
  = Ok (Some (vals_of "Homo_sapiens" (0 # 2) "species" 5 "1.0"))
  /\ rank_table "species" = "S"
  /\ level_str_of string (vals_of "Homo_sapiens" (0 # 2) "species" 5 "1.0")
     = "x__Homo_sapiens"
  /\ ~ rank_normalized string (vals_of "Homo_sapiens" (0 # 2) "species" 5 "1.0").
Proof.
  repeat split. intros H. vm_compute in H. discriminate H.
Defined.

(** C2 as it is stated fails on a report that jumps from depth 1 to depth 4:
    the pass ends with the [IndexError] of [list.pop], not with an error
    that the program raises itself. *)
Lemma explicit_error_counterexample :
  output string DecimalText.float_of_string DecimalText.str_of_float default_plugin
    [root_line; bacteria_line; deep_line]
  = ("k__Bacteria" ++ String Py.tab "90" ++ String Py.newline EmptyString,
     Raise IndexError)
  /\ move_back (8 # 2) (2 # 2) ["r__root"; "k__Bacteria"] = Raise IndexError
  /\ ~ explicit_consistency_error
         (output string DecimalText.float_of_string DecimalText.str_of_float
            default_plugin [root_line; bacteria_line; deep_line]).
Proof.
  repeat split. intros (e & _ & He). destruct e; discriminate He.
Defined.

(** A whole pass over a small report, with the header. *)
Example output_sample :
  output string DecimalText.float_of_string DecimalText.str_of_float
    (mk_plugin "/data/sample.kreport" "True" "True" "False")
    [title_line; root_line; bacteria_line; ecoli_line; archaea_line]
  = ("#Classification" ++ String Py.tab "sample.kreport" ++ String Py.newline
       ("k__Bacteria" ++ String Py.tab "90" ++ String Py.newline
          ("k__Bacteria|s__Escherichia_coli" ++ String Py.tab "100" ++ String Py.newline
             ("k__Archaea" ++ String Py.tab "5" ++ String Py.newline EmptyString))),
     Ok tt).
Proof. reflexivity. Qed.

(** ** More properties on sample reports *)

Lemma header_names_report_witness :
  exists (w rest : string) (r : result unit),
    output_after_input string DecimalText.float_of_string DecimalText.str_of_float
      (input "/data/run1"
         [("report", "reports/sample.kreport"); ("display_header", "True")])
      [root_line; bacteria_line] = Some (w, r)
    /\ w = "#Classification" ++ String Py.tab (Py.basename "reports/sample.kreport")
             ++ String Py.newline rest.
Proof.
  exact (header_names_report string DecimalText.float_of_string
           DecimalText.str_of_float "/data/run1" "reports/sample.kreport"
           [("report", "reports/sample.kreport"); ("display_header", "True")]
           [root_line; bacteria_line] eq_refl eq_refl).
Defined.

Lemma parser_raises_only_ValueError_witness :
  ValueError = ValueError /\ (4 <= length (fields bad_percent_line))%nat.
Proof.
  exact (parser_raises_only_ValueError string DecimalText.float_of_string
           bad_percent_line ValueError eq_refl).
Defined.

(** An indented line that ends with a carriage return and a line feed. *)
Lemma surrounding_whitespace_immaterial_witness :
  parse ("  " ++ ecoli_line ++ String "013" (String "010" EmptyString))
  = parse ecoli_line.
Proof.
  exact (proj1 (surrounding_whitespace_immaterial string DecimalText.float_of_string
                  DecimalText.str_of_float "  "
                  (String "013" (String "010" EmptyString)) ecoli_line
                  eq_refl eq_refl)).
Defined.

Lemma name_has_no_separator_witness :
  has_char " " (level_str_of string (vals_of "Homo_sapiens" (3 # 2) "S" 5 "1.0")) = false
  /\ has_char Py.tab (level_str_of string (vals_of "Homo_sapiens" (3 # 2) "S" 5 "1.0"))
     = false.
Proof.
  exact (proj2 (proj2
    (name_has_no_separator string DecimalText.float_of_string odd_indent_line
       (vals_of "Homo_sapiens" (3 # 2) "S" 5 "1.0") eq_refl))).
Defined.

Lemma word_layout_never_unclassified_witness :
  level_type string (vals_of "Homo_sapiens" (6 # 2) "S" 12 "0.05") <> "U".
Proof.
  exact (proj1 (proj2
    (word_layout_never_unclassified string DecimalText.float_of_string
       homo_kuniq_line "9606" (vals_of "Homo_sapiens" (6 # 2) "S" 12 "0.05") 9606
       eq_refl eq_refl eq_refl))).
Defined.

(** A title line between the root and Bacteria changes nothing. *)
Lemma skipped_lines_removable_witness :
  output string DecimalText.float_of_string DecimalText.str_of_float default_plugin
    ([root_line] ++ title_line :: [bacteria_line; ecoli_line])
  = output string DecimalText.float_of_string DecimalText.str_of_float default_plugin
      ([root_line] ++ [bacteria_line; ecoli_line]).
Proof.
  refine (proj2 (skipped_lines_removable string DecimalText.float_of_string
                   DecimalText.str_of_float default_plugin [root_line]
                   [bacteria_line; ecoli_line] title_line initial _)).
  left. reflexivity.
Defined.

(** A report of a title and one indented record: nothing is written. *)
Lemma first_record_writes_nothing_witness :
  output string DecimalText.float_of_string DecimalText.str_of_float default_plugin
    ([title_line] ++ [indented_root_line])
  = (header_text default_plugin, Ok tt).
Proof.
  refine (proj2 (first_record_writes_nothing string DecimalText.float_of_string
                   DecimalText.str_of_float default_plugin [title_line]
                   indented_root_line (vals_of "root" (2 # 2) "R" 5 "100.00") _ _ _)).
  - constructor; [left; reflexivity|constructor].
  - reflexivity.
  - discriminate.
Defined.

(** After the jump from Bacteria to depth 4 has ended the pass, a further
    line changes nothing. *)
Lemma output_grows_with_report_witness :
  output string DecimalText.float_of_string DecimalText.str_of_float default_plugin
    ([bacteria_line; deep_line] ++ [ecoli_line])
  = output string DecimalText.float_of_string DecimalText.str_of_float default_plugin
      [bacteria_line; deep_line].
Proof.
  exact (proj2 (output_grows_with_report string DecimalText.float_of_string
                  DecimalText.str_of_float default_plugin
                  [bacteria_line; deep_line] [ecoli_line]) IndexError eq_refl).
Defined.

(** Three spaces below a record with two spaces. *)
Lemma odd_indentation_aborts_witness :
  body default_plugin root_bacteria odd_indent_line = (EmptyString, Raise IndexError).
Proof.
  refine (proj1 (odd_indentation_aborts string DecimalText.float_of_string
                   DecimalText.str_of_float default_plugin root_bacteria
                   odd_indent_line (vals_of "Homo_sapiens" (3 # 2) "S" 5 "1.0")
                   2 3 _ _ _ _ _ _)).
  - reflexivity.
  - discriminate.
  - reflexivity.
  - reflexivity.
  - reflexivity.
  - reflexivity.
Defined.

Lemma pass_completes_iff_well_nested_witness :
  (exists w : string,
      output string DecimalText.float_of_string DecimalText.str_of_float
        default_plugin [title_line; root_line; bacteria_line; ecoli_line; archaea_line]
      = (w, Ok tt))
  /\ (exists (w : string) (e : exn),
        output string DecimalText.float_of_string DecimalText.str_of_float
          default_plugin [root_line; bacteria_line; deep_line] = (w, Raise e)).
Proof.
  split.
  - exact (proj1 (proj1 (pass_completes_iff_well_nested string
             DecimalText.float_of_string DecimalText.str_of_float default_plugin
             [title_line; root_line; bacteria_line; ecoli_line; archaea_line]))
             eq_refl).
  - exact (proj1 (proj2 (pass_completes_iff_well_nested string
             DecimalText.float_of_string DecimalText.str_of_float default_plugin
             [root_line; bacteria_line; deep_line])) eq_refl).
Defined.

Lemma written_line_has_two_columns_witness :
  count_char Py.tab
    ("k__Bacteria|s__Escherichia_coli" ++ String Py.tab "100"
       ++ String Py.newline EmptyString) = 1%nat.
Proof.
  destruct (written_line_has_two_columns string DecimalText.float_of_string
              DecimalText.str_of_float default_plugin [root_line; bacteria_line]
              ecoli_line
              ("k__Bacteria" ++ String Py.tab "90" ++ String Py.newline EmptyString)
              ("k__Bacteria|s__Escherichia_coli" ++ String Py.tab "100"
                 ++ String Py.newline EmptyString)
              (mk_tracker ["r__root"; "k__Bacteria"] (2 # 2))
              (Ok (mk_tracker ["r__root"; "k__Bacteria"; "s__Escherichia_coli"] (4 # 2))))
    as [H|[H _]].
  - reflexivity.
  - reflexivity.
  - reflexivity.
  - discriminate H.
  - exact H.
Defined.

(** The entry at index 2 after root, Bacteria and Escherichia coli. *)
Lemma stack_entries_at_consecutive_depths_witness :
  exists (line : string) (vals : report_vals string),
    In line [root_line; bacteria_line; ecoli_line]
    /\ parse line = Ok (Some vals)
    /\ level_type string vals <> "U"
    /\ "s__Escherichia_coli" = level_str_of string vals
    /\ (level_num string vals == (0 # 2) + inject_Z (Z.of_nat 2))%Q.
Proof.
  exact (stack_entries_at_consecutive_depths string DecimalText.float_of_string
           DecimalText.str_of_float default_plugin
           [root_line; bacteria_line; ecoli_line]
           ("k__Bacteria" ++ String Py.tab "90" ++ String Py.newline
              ("k__Bacteria|s__Escherichia_coli" ++ String Py.tab "100"
                 ++ String Py.newline EmptyString))
           (mk_tracker ["r__root"; "k__Bacteria"; "s__Escherichia_coli"] (4 # 2))
           (0 # 2) eq_refl eq_refl 2%nat "s__Escherichia_coli" eq_refl).
Defined.
